(** * simple_eq: the three-band equalizer [apply_eq]

    A shallow embedding of [apply_eq] from [src/simple_eq.py]
    (lines 145-164), the only signal-processing code of the
    repository; the rest of the file is the Flask layer.

    Modelling choices.
    - A Python float is a real number ([R]): the model follows the
      finite values of a run, without rounding.  The sample rate is
      an integer.  Where the doubles of the code leave the reals the
      model says so in two ways.  [10 ** x] raises [OverflowError]
      when its value is beyond the largest double ([float_pow10]).
      A product or a sum of samples that overflows has no exception
      to raise: it becomes [inf], and then [nan]; module [Binary64]
      runs the arithmetic of lines 154-164 on binary64 values and
      shows what happens there, and the theorems about the values of
      the real-number model that do not hold beyond the doubles take
      the hypothesis that the run stays in range ([in_range]).  A
      value is compared with the largest double as a real number;
      for a value within a rounding error of it, the double of the
      code may fall on the other side.
    - A numpy array is a cell of a store ([heap]), named by a
      location.  Every numpy operation used by [apply_eq] reads its
      operands and allocates a new cell for its result; the store
      makes it possible to state what the call does to the caller's
      buffer.
    - A Python exception is the [Raise] branch of [result]; an
      exception leaves the store as it was when it was raised.
    - [scipy.signal.butter] and [scipy.signal.filtfilt] are library
      code.  Their argument checks, which are what raises, are
      written out, and so is the one step of [filtfilt] that can
      fail after them, the linear system of [lfilter_zi]; the
      numerical kernels behind the checks are variables of the
      section below, and the facts assumed about them are its
      hypotheses. *)

From Stdlib Require Import String Ascii.
From Stdlib Require Import Reals Lra Lia List ZArith Bool Arith.
From Stdlib Require PrimFloat.
Import ListNotations.

Local Open Scope R_scope.

(** ** Exceptions and results *)

(** [ValueError], [ZeroDivisionError], [TypeError], [OverflowError]
    and numpy's [LinAlgError] are the exceptions the embedded code
    can raise.  The last three names are the error kinds of the
    specification; no definition below builds them. *)
Inductive exn : Type :=
| ValueError
| ZeroDivisionError
| TypeError
| OverflowError
| LinAlgError
| ConfigurationError
| InsufficientSamplesError
| NumericOverflowError.

Inductive result (A : Type) : Type :=
| Ok (a : A)
| Raise (e : exn).

Arguments Ok {A} a.
Arguments Raise {A} e.

(** ** The store of arrays *)

Definition loc := nat.
Definition ndarray := list R.
Definition heap := list ndarray.

(** A computation takes a store and gives a result and a store. *)
Definition M (A : Type) : Type := heap -> result A * heap.

Definition ret {A : Type} (a : A) : M A := fun h => (Ok a, h).

Definition raise {A : Type} (e : exn) : M A := fun h => (Raise e, h).

Definition bind {A B : Type} (m : M A) (k : A -> M B) : M B :=
  fun h =>
    match m h with
    | (Ok a, h') => k a h'
    | (Raise e, h') => (Raise e, h')
    end.

Declare Scope py_scope.
Delimit Scope py_scope with py.

Notation "x <- m ;; k" := (bind m (fun x => k))
  (at level 100, m at next level, right associativity) : py_scope.
Notation "' pat <- m ;; k" := (bind m (fun x => match x with pat => k end))
  (at level 100, pat pattern, m at next level, right associativity)
  : py_scope.

Local Open Scope py_scope.

(** Reading a location.  A name that is not bound to an array is a
    [TypeError]. *)
Definition np_load (x : loc) : M ndarray :=
  fun h =>
    match nth_error h x with
    | Some xs => (Ok xs, h)
    | None => (Raise TypeError, h)
    end.

(** A new array goes to the first free location. *)
Definition np_new (xs : ndarray) : M loc :=
  fun h => (Ok (length h), h ++ [xs]).

(** ** Python scalars *)

Definition Rleb (x y : R) : bool := if Rle_dec x y then true else false.
Definition Rltb (x y : R) : bool := if Rlt_dec x y then true else false.
Definition Reqb (x y : R) : bool := if Req_dec_T x y then true else false.

(** [x / y] on floats. *)
Definition py_truediv (x y : R) : M R :=
  if Reqb y 0 then raise ZeroDivisionError else ret (x / y).

(** The largest double, [(2 - 2 ** -52) * 2 ** 1023]. *)
Definition float_max : R := IZR (2 ^ 1024 - 2 ^ 971).


(** The value of [10 ** x]. *)
Definition py_pow10 (x : R) : R := Rpower 10 x.

(** [10 ** x] as Python runs it on a float [x]: C's [pow], and
    [OverflowError] when the result is out of range.  A result too
    small for a double is not an error. *)
Definition float_pow10 (x : R) : M R :=
  if Rltb float_max (py_pow10 x) then raise OverflowError
  else ret (py_pow10 x).

(** ** numpy *)

(** [x * k], an array times a scalar. *)
Definition np_mul_scalar (x : loc) (k : R) : M loc :=
  xs <- np_load x ;;
  np_new (map (fun v => v * k) xs).

(** [x / k], an array divided by a scalar. *)
Definition np_div_scalar (x : loc) (k : R) : M loc :=
  xs <- np_load x ;;
  np_new (map (fun v => v / k) xs).

Fixpoint zip_add (xs ys : ndarray) : ndarray :=
  match xs, ys with
  | x :: xs', y :: ys' => (x + y) :: zip_add xs' ys'
  | _, _ => []
  end.

(** The shapes of one-dimensional operands: equal lengths add
    elementwise, a length-one operand is broadcast, anything else is
    a [ValueError]. *)
Definition broadcast_add (xs ys : ndarray) : M ndarray :=
  if (length xs =? length ys)%nat then ret (zip_add xs ys)
  else match xs, ys with
       | [x], _ => ret (map (fun y => x + y) ys)
       | _, [y] => ret (map (fun x => x + y) xs)
       | _, _ => raise ValueError
       end.

(** [x + y]. *)
Definition np_add (x y : loc) : M loc :=
  xs <- np_load x ;;
  ys <- np_load y ;;
  zs <- broadcast_add xs ys ;;
  np_new zs.

(** [np.abs(x)]. *)
Definition np_abs (x : loc) : M loc :=
  xs <- np_load x ;;
  np_new (map Rabs xs).

(** [np.max(x)]: the reduction has no identity, an empty array is a
    [ValueError]. *)
Definition np_max (x : loc) : M R :=
  xs <- np_load x ;;
  match xs with
  | [] => raise ValueError
  | v :: vs => ret (fold_left Rmax vs v)
  end.

(** ** scipy.signal *)

(** [btype]: ['low'], ['band'], ['high']. *)
Inductive btype : Type := low | band | high.

(** The critical frequencies [Wn]: a scalar or a pair. *)
Inductive critical : Type :=
| Wn1 (w : R)
| Wn2 (w0 w1 : R).

(** The coefficients [(b, a)]. *)
Definition taps : Type := (list R * list R)%type.

Definition any_critical (p : R -> bool) (Wn : critical) : bool :=
  match Wn with
  | Wn1 w => p w
  | Wn2 w0 w1 => p w0 || p w1
  end.

(** The order of the filter [butter(N, _, btype)] designs: a
    band-pass has twice the order of its prototype. *)
Definition filter_order (N : nat) (bt : btype) : nat :=
  match bt with
  | band => (2 * N)%nat
  | low | high => N
  end.

(** ** An instance of the two kernels *)

(** The all-pass filter [b = a = [1, 0, ..., 0]] with the number of
    coefficients [butter] returns, and what [filtfilt] computes with
    it, which is its input.  The closed examples at the end of the
    file run [apply_eq] with this instance. *)
Definition allpass_design (N : nat) (Wn : critical) (bt : btype) : taps :=
  (1 :: repeat 0 (filter_order N bt), 1 :: repeat 0 (filter_order N bt)).

Definition allpass_kernel (b a : list R) (xs : ndarray) : ndarray := xs.

(** A system of [lfilter_zi] that can always be solved. *)
Definition allpass_solvable (b a : list R) : bool := true.

(** ** Lines 154-164 on doubles *)

(** The arithmetic of lines 154-164 on binary64 values, which round,
    overflow to [infinity] and give [nan] as the doubles of numpy
    do.  What this module takes as given are the three arrays
    [filtfilt] has returned and the three factors [10 ** (gain / 20)]
    has returned; nothing in these lines raises on a non-finite
    value. *)
Module Binary64.

Import PrimFloat.

Definition ndarray := list float.

(** [x * k]. *)
Definition np_mul_scalar (xs : ndarray) (k : float) : ndarray :=
  map (fun v => mul v k) xs.

(** [x + y] for arrays of one shape. *)
Fixpoint np_add (xs ys : ndarray) : ndarray :=
  match xs, ys with
  | x :: xs', y :: ys' => add x y :: np_add xs' ys'
  | _, _ => []
  end.

(** [np.abs(x)]. *)
Definition np_abs (xs : ndarray) : ndarray := map abs xs.

(** [np.maximum]: a [nan] operand is the result. *)
Definition maximum (a b : float) : float :=
  if is_nan a then a
  else if is_nan b then b
  else if ltb a b then b else a.

(** [np.max(x)]; [None] stands for the [ValueError] of an empty
    array. *)
Definition np_max (xs : ndarray) : option float :=
  match xs with
  | [] => None
  | v :: vs => Some (fold_left maximum vs v)
  end.

(** Lines 154-159, from the filtered bands and the factors. *)
Definition mix_bands (low_filtered mid_filtered high_filtered : ndarray)
    (low_factor mid_factor high_factor : float) : ndarray :=
  let low_band := np_mul_scalar low_filtered low_factor in
  let mid_band := np_mul_scalar mid_filtered mid_factor in
  let high_band := np_mul_scalar high_filtered high_factor in
  np_add (np_add low_band mid_band) high_band.

(** Lines 160-164: [max_val > 1.0] is false for [nan]. *)
Definition normalize (processed : ndarray) : option ndarray :=
  match np_max (np_abs processed) with
  | None => None
  | Some max_val =>
      Some (if ltb 1 max_val
            then map (fun v => div v max_val) processed
            else processed)
  end.


(** Whether line 161 finds a peak above 1. *)
Definition clips (processed : ndarray) : bool :=
  match np_max (np_abs processed) with
  | None => false
  | Some max_val => ltb 1 max_val
  end.

Definition pow10_0_05 : float := 0x1.1f3c99f6bc436p+0.
Definition pow10_0_1 : float := 0x1.4248ef8fc2604p+0.



(** Three bands of two samples, and their mixed buffers with the
    three gains at 1 dB and at 2 dB. *)
Definition low_pair : ndarray := [1.5; 0.75]%float.
Definition mid_pair : ndarray := [0.25; -0.5]%float.
Definition high_pair : ndarray := [0.125; 0.0625]%float.

Definition mixed_1dB : ndarray :=
  mix_bands low_pair mid_pair high_pair pow10_0_05 pow10_0_05 pow10_0_05.

Definition mixed_2dB : ndarray :=
  mix_bands low_pair mid_pair high_pair pow10_0_1 pow10_0_1 pow10_0_1.

(** What lines 160-164 return for the one and for the other. *)
Definition output_1dB : ndarray := [1; 0x1.5555555555557p-3]%float.
Definition output_2dB : ndarray := [1; 0x1.5555555555555p-3]%float.

End Binary64.

(** ** Python strings and paths *)

(** [s.split(sep)] for a separator of one character: the pieces
    between the separators, of which there is always at least one. *)
Fixpoint py_split (sep : ascii) (s : string) : list string :=
  match s with
  | EmptyString => [EmptyString]
  | String c s' =>
      if Ascii.eqb c sep then EmptyString :: py_split sep s'
      else match py_split sep s' with
           | [] => [String c EmptyString]
           | piece :: pieces => String c piece :: pieces
           end
  end.

Definition starts_with (c : ascii) (s : string) : bool :=
  match s with
  | EmptyString => false
  | String c' _ => Ascii.eqb c' c
  end.

Fixpoint ends_with (c : ascii) (s : string) : bool :=
  match s with
  | EmptyString => false
  | String c' EmptyString => Ascii.eqb c' c
  | String _ s' => ends_with c s'
  end.

(** [os.path.join(a, b)] of [posixpath]: an absolute [b] replaces
    [a]; otherwise [b] is appended, after a slash unless [a] is empty
    or ends with one. *)
Definition os_path_join (a b : string) : string :=
  if starts_with "/" b then b
  else if String.eqb a "" || ends_with "/" a then (a ++ b)%string
  else (a ++ "/" ++ b)%string.

(** A string without the character [c]. *)
Fixpoint without (c : ascii) (s : string) : bool :=
  match s with
  | EmptyString => true
  | String c' s' => negb (Ascii.eqb c' c) && without c s'
  end.

(** The name line 194 builds, [f"eq_{filename.split('.')[0]}.wav"];
    [None] stands for the [IndexError] of [[0]] on an empty list. *)
Definition output_name (filename : string) : option string :=
  match py_split "." filename with
  | [] => None
  | stem :: _ => Some ("eq_" ++ stem ++ ".wav")%string
  end.

(** ** The Flask layer: requests, responses, files *)

Set Warnings "-register-all".

(** A decoded JSON body. *)
Inductive json : Type :=
| JNull
| JBool (b : bool)
| JNum (r : R)
| JStr (s : string)
| JArr (items : list json)
| JObj (fields : list (string * json)).

Set Warnings "register-all".

(** What the handlers can raise: an exception of [apply_eq] or of a
    Python built-in ([Py]), and those of the dictionary, the list,
    the request and the two audio libraries. *)
Inductive web_exn : Type :=
| Py (e : exn)
| KeyError (key : string)
| IndexError
| AttributeError
| BadRequest
| LoadError (path : string)
| WriteError (path : string).

(** The JSON a handler answers with. *)
Inductive response : Type :=
| UploadOk (filename : string)
| ProcessOk (processed_filename : string)
| ErrorJson (e : web_exn).

Inductive outcome (A : Type) : Type :=
| Done (a : A)
| Thrown (e : web_exn).

Arguments Done {A} a.
Arguments Thrown {A} e.

(** The files of the machine: the newest entry of a path is the
    file at that path. *)
Definition files := list (string * string).

Fixpoint disk_read (path : string) (d : files) : option string :=
  match d with
  | [] => None
  | (p, content) :: d' =>
      if String.eqb p path then Some content else disk_read path d'
  end.

(** The arrays and the files. *)
Record world : Type := { store : heap; disk : files }.

(** A handler step takes a world and gives an outcome and a world. *)
Definition W (A : Type) : Type := world -> outcome A * world.

Definition wret {A : Type} (a : A) : W A := fun w => (Done a, w).

Definition throw {A : Type} (e : web_exn) : W A := fun w => (Thrown e, w).

Definition wbind {A B : Type} (m : W A) (k : A -> W B) : W B :=
  fun w =>
    match m w with
    | (Done a, w') => k a w'
    | (Thrown e, w') => (Thrown e, w')
    end.

Notation "x <~ m ;; k" := (wbind m (fun x => k))
  (at level 100, m at next level, right associativity) : py_scope.
Notation "' pat <~ m ;; k" := (wbind m (fun x => match x with pat => k end))
  (at level 100, pat pattern, m at next level, right associativity)
  : py_scope.

(** A computation on arrays, as a step of a handler. *)
Definition core {A : Type} (m : M A) : W A :=
  fun w =>
    match m (store w) with
    | (Ok a, h) => (Done a, {| store := h; disk := disk w |})
    | (Raise e, h) => (Thrown (Py e), {| store := h; disk := disk w |})
    end.

(** [try: ... except Exception as e: return jsonify({'error':
    str(e)})]. *)
Definition try_except (body : W response) : world -> response * world :=
  fun w =>
    match body w with
    | (Done r, w') => (r, w')
    | (Thrown e, w') => (ErrorJson e, w')
    end.

(** [request.json]: the decoded body, or the error of a request
    without one. *)
Definition request_json (body : option json) : W json :=
  match body with
  | Some data => wret data
  | None => throw BadRequest
  end.

Fixpoint dict_get (key : string) (fields : list (string * json))
  : option json :=
  match fields with
  | [] => None
  | (k, v) :: fields' =>
      if String.eqb k key then Some v else dict_get key fields'
  end.

(** [data[key]] with a string key. *)
Definition subscript (data : json) (key : string) : W json :=
  match data with
  | JObj fields =>
      match dict_get key fields with
      | Some v => wret v
      | None => throw (KeyError key)
      end
  | _ => throw (Py TypeError)
  end.

(** [os.path.join(a, v)] where [v] comes from the request. *)
Definition os_path_join_value (a : string) (v : json) : W string :=
  match v with
  | JStr b => wret (os_path_join a b)
  | _ => throw (Py TypeError)
  end.

(** [v.split('.')]. *)
Definition split_value (v : json) : W (list string) :=
  match v with
  | JStr s => wret (py_split "." s)
  | _ => throw AttributeError
  end.

(** [pieces[0]]. *)
Definition first_item (pieces : list string) : W string :=
  match pieces with
  | [] => throw IndexError
  | piece :: _ => wret piece
  end.

(** ** An instance of what the handlers take from outside *)

(** A machine for the closed examples: the directory [/tmp/eq], with
    no directory in it, so that a file can be written in [/tmp/eq]
    itself and nowhere else; two file contents that decode, to 28
    samples at 44100 Hz and at 8000 Hz; an encoder that keeps the
    number of samples only; [float] on the strings ["0"], ["6"] and
    ["10000"]; file names that need no securing. *)
Definition demo_temp_dir : string := "/tmp/eq".

Definition demo_decode (content : string) : option (ndarray * Z) :=
  if String.eqb content "tone" then Some (repeat 2 28, 44100%Z)
  else if String.eqb content "phone" then Some (repeat 2 28, 8000%Z)
  else None.

Definition demo_encode (samples : ndarray) (sr : Z) : string :=
  String.concat "" (repeat "s"%string (length samples)).

Definition demo_float (s : string) : option R :=
  if String.eqb s "0" then Some 0
  else if String.eqb s "6" then Some 6
  else if String.eqb s "10000" then Some 10000
  else None.

Definition demo_secure (name : string) : string := name.

Fixpoint strip_prefix (p s : string) : option string :=
  match p, s with
  | EmptyString, _ => Some s
  | String a p', String b s' =>
      if Ascii.eqb a b then strip_prefix p' s' else None
  | String _ _, EmptyString => None
  end.

Definition demo_writable (path : string) : bool :=
  match strip_prefix "/tmp/eq/" path with
  | Some file => without "/" file
  | None => false
  end.

(** The request of the page for [name], with the gains 0, 6 and 0
    dB. *)
Definition demo_fields (name : string) : list (string * json) :=
  [ ("filename"%string, JStr name);
    ("low_gain"%string, JStr "0");
    ("mid_gain"%string, JStr "6");
    ("high_gain"%string, JStr "0") ].


(** A machine with one stored file and no array. *)
Definition demo_world (path content : string) : world :=
  {| store := []; disk := [(path, content)] |}.

Section Equalizer.

(** The design kernel of [butter] (analog prototype, frequency
    transform, bilinear transform) and the filtering kernel of
    [filtfilt] (odd extension, forward and backward pass, crop). *)
Variable butter_design : nat -> critical -> btype -> taps.
Variable filtfilt_kernel : list R -> list R -> ndarray -> ndarray.

(** [filtfilt] starts each pass from the steady state of the filter,
    which [lfilter_zi(b, a)] finds by solving a linear system; numpy
    raises [LinAlgError] when it finds the matrix singular.  Whether
    the system of [(b, a)] is solved: *)
Variable lfilter_zi_solvable : list R -> list R -> bool.

(** What is assumed of the two kernels, each from the documentation
    of its function.  A theorem depends on the hypotheses its
    statement lists, and on no other. *)

(** [butter] returns [N + 1] coefficients in [b] and in [a], and
    [2 N + 1] for a band-pass. *)
Hypothesis butter_taps :
  forall N Wn bt,
    length (fst (butter_design N Wn bt)) = S (filter_order N bt) /\
    length (snd (butter_design N Wn bt)) = S (filter_order N bt).

(** [filtfilt] returns an array of the shape of its input. *)
Hypothesis filtfilt_length :
  forall b a xs,
    (3 * Nat.max (length a) (length b) < length xs)%nat ->
    length (filtfilt_kernel b a xs) = length xs.

(** [filtfilt] is a linear filter: silence gives silence. *)
Hypothesis filtfilt_zero :
  forall b a n,
    (3 * Nat.max (length a) (length b) < n)%nat ->
    filtfilt_kernel b a (repeat 0 n) = repeat 0 n.

(** [butter(N, Wn, btype)] for a digital filter: the checks of
    [iirfilter], in its order.  Every one of them raises
    [ValueError]. *)
Definition butter (N : nat) (Wn : critical) (bt : btype) : M taps :=
  if any_critical (fun w => Rleb w 0) Wn then raise ValueError
  else if match Wn with
          | Wn1 _ => false
          | Wn2 w0 w1 => negb (Rltb w0 w1)
          end then raise ValueError
  else if any_critical (fun w => Rleb 1 w) Wn then raise ValueError
  else match bt, Wn with
       | low, Wn1 _ | high, Wn1 _ | band, Wn2 _ _ =>
           ret (butter_design N Wn bt)
       | _, _ => raise ValueError
       end.

(** [filtfilt(b, a, x)] with its defaults ([padtype='odd'],
    [padlen=None]): the pad length is three times the number of
    taps, and [x] must be longer than that; then [lfilter_zi(b, a)]
    is computed, and then the signal is filtered. *)
Definition filtfilt (b a : list R) (x : loc) : M loc :=
  xs <- np_load x ;;
  let edge := (3 * Nat.max (length a) (length b))%nat in
  if (length xs <=? edge)%nat then raise ValueError
  else if lfilter_zi_solvable b a then np_new (filtfilt_kernel b a xs)
  else raise LinAlgError.

(** ** apply_eq *)

(** Lines 145-164, statement by statement.  An operand is evaluated
    before the operation that uses it, left to right, as Python
    does: on lines 154-156 [filtfilt] runs before the gain is
    converted, and the gain is converted before it is multiplied
    in. *)
Definition apply_eq (audio : loc) (sr : Z)
    (low_gain mid_gain high_gain : R) : M loc :=
  let nyquist := IZR sr / 2 in
  (* Design filters *)
  w <- py_truediv (Rmin 250 (nyquist - 1)) nyquist ;;
  '(b_low, a_low) <- butter 4 (Wn1 w) low ;;
  w0 <- py_truediv (Rmax 250 1) nyquist ;;
  w1 <- py_truediv (Rmin 4000 (nyquist - 1)) nyquist ;;
  '(b_mid, a_mid) <- butter 4 (Wn2 w0 w1) band ;;
  w <- py_truediv (Rmax 4000 1) nyquist ;;
  '(b_high, a_high) <- butter 4 (Wn1 w) high ;;
  (* Apply filters and gains *)
  filtered <- filtfilt b_low a_low audio ;;
  factor <- float_pow10 (low_gain / 20) ;;
  low_band <- np_mul_scalar filtered factor ;;
  filtered <- filtfilt b_mid a_mid audio ;;
  factor <- float_pow10 (mid_gain / 20) ;;
  mid_band <- np_mul_scalar filtered factor ;;
  filtered <- filtfilt b_high a_high audio ;;
  factor <- float_pow10 (high_gain / 20) ;;
  high_band <- np_mul_scalar filtered factor ;;
  (* Combine and normalize *)
  s <- np_add low_band mid_band ;;
  processed <- np_add s high_band ;;
  magnitudes <- np_abs processed ;;
  max_val <- np_max magnitudes ;;
  if Rltb 1 max_val then np_div_scalar processed max_val
  else ret processed.

(** ** The stages of apply_eq *)

(** The same statements, cut into the stages the specification
    names; [apply_eq_stages] below shows that [apply_eq] is
    [mix_bands] followed by [normalize]. *)

(** Lines 146-151: the three designs. *)
Definition design_filters (sr : Z) : M (taps * taps * taps) :=
  let nyquist := IZR sr / 2 in
  w <- py_truediv (Rmin 250 (nyquist - 1)) nyquist ;;
  low_taps <- butter 4 (Wn1 w) low ;;
  w0 <- py_truediv (Rmax 250 1) nyquist ;;
  w1 <- py_truediv (Rmin 4000 (nyquist - 1)) nyquist ;;
  mid_taps <- butter 4 (Wn2 w0 w1) band ;;
  w <- py_truediv (Rmax 4000 1) nyquist ;;
  high_taps <- butter 4 (Wn1 w) high ;;
  ret (low_taps, mid_taps, high_taps).

(** The gain stage: the factor [* (10 ** (gain / 20))] of lines
    154-156. *)
Definition gain_stage (filtered : loc) (gain : R) : M loc :=
  factor <- float_pow10 (gain / 20) ;;
  np_mul_scalar filtered factor.

(** One of lines 154-156: [filtfilt(b, a, audio) * (10 ** (gain /
    20))]. *)
Definition filter_band (t : taps) (audio : loc) (gain : R) : M loc :=
  let '(b, a) := t in
  filtered <- filtfilt b a audio ;;
  gain_stage filtered gain.

(** Lines 146-159: everything up to [processed = low_band + mid_band
    + high_band]. *)
Definition mix_bands (audio : loc) (sr : Z)
    (low_gain mid_gain high_gain : R) : M loc :=
  '(low_taps, mid_taps, high_taps) <- design_filters sr ;;
  low_band <- filter_band low_taps audio low_gain ;;
  mid_band <- filter_band mid_taps audio mid_gain ;;
  high_band <- filter_band high_taps audio high_gain ;;
  s <- np_add low_band mid_band ;;
  np_add s high_band.

(** Lines 160-164: the peak and the division by it. *)
Definition normalize (processed : loc) : M loc :=
  magnitudes <- np_abs processed ;;
  max_val <- np_max magnitudes ;;
  if Rltb 1 max_val then np_div_scalar processed max_val
  else ret processed.

(** ** The values a run computes *)

(** The pad length [filtfilt] takes for the coefficients [t]. *)
Definition padlen (t : taps) : nat :=
  (3 * Nat.max (length (snd t)) (length (fst t)))%nat.

(** The three coefficient pairs of a run at sample rate [sr]. *)
Definition designs (sr : Z) : taps * taps * taps :=
  let nyquist := IZR sr / 2 in
  (butter_design 4 (Wn1 (Rmin 250 (nyquist - 1) / nyquist)) low,
   butter_design 4
     (Wn2 (Rmax 250 1 / nyquist) (Rmin 4000 (nyquist - 1) / nyquist)) band,
   butter_design 4 (Wn1 (Rmax 4000 1 / nyquist)) high).

Definition low_design (sr : Z) : taps := fst (fst (designs sr)).
Definition mid_design (sr : Z) : taps := snd (fst (designs sr)).
Definition high_design (sr : Z) : taps := snd (designs sr).

(** One band before and after its gain. *)
Definition filtered_samples (t : taps) (xs : ndarray) : ndarray :=
  filtfilt_kernel (fst t) (snd t) xs.

Definition scaled (k : R) (xs : ndarray) : ndarray :=
  map (fun v => v * k) xs.

Definition band_samples (t : taps) (xs : ndarray) (gain : R) : ndarray :=
  scaled (py_pow10 (gain / 20)) (filtered_samples t xs).

(** The contents of [processed] after line 159. *)
Definition mixed_samples (xs : ndarray) (sr : Z)
    (low_gain mid_gain high_gain : R) : ndarray :=
  zip_add
    (zip_add (band_samples (low_design sr) xs low_gain)
             (band_samples (mid_design sr) xs mid_gain))
    (band_samples (high_design sr) xs high_gain).

(** The largest magnitude of a buffer ([0] stands for the undefined
    maximum of the empty buffer). *)
Definition peak (ys : ndarray) : R :=
  match map Rabs ys with
  | [] => 0
  | v :: vs => fold_left Rmax vs v
  end.

(** The contents of the buffer [apply_eq] returns. *)
Definition normalized_samples (ys : ndarray) : ndarray :=
  if Rltb 1 (peak ys) then map (fun v => v / peak ys) ys else ys.

(** The cells a successful run of [mix_bands] allocates, in order. *)
Definition mix_cells (xs : ndarray) (sr : Z) (gl gm gh : R) : heap :=
  [ filtered_samples (low_design sr) xs;
    band_samples (low_design sr) xs gl;
    filtered_samples (mid_design sr) xs;
    band_samples (mid_design sr) xs gm;
    filtered_samples (high_design sr) xs;
    band_samples (high_design sr) xs gh;
    zip_add (band_samples (low_design sr) xs gl)
            (band_samples (mid_design sr) xs gm);
    mixed_samples xs sr gl gm gh ].

(** A buffer length that passes the three length checks. *)
Definition long_enough (sr : Z) (n : nat) : Prop :=
  (padlen (low_design sr) < n)%nat /\
  (padlen (mid_design sr) < n)%nat /\
  (padlen (high_design sr) < n)%nat.

(** Whether [lfilter_zi] solves the system of the coefficients [t]. *)
Definition zi_solvable (t : taps) : bool :=
  lfilter_zi_solvable (fst t) (snd t).

(** A sample rate at which [filtfilt] finds the steady state of each
    of the three filters. *)
Definition filters_start (sr : Z) : Prop :=
  zi_solvable (low_design sr) = true /\
  zi_solvable (mid_design sr) = true /\
  zi_solvable (high_design sr) = true.

(** A gain whose factor, 10 to the power [gain / 20], is within the
    doubles. *)
Definition no_overflow (gain : R) : Prop :=
  Rpower 10 (gain / 20) <= float_max.

Definition gains_fit (low_gain mid_gain high_gain : R) : Prop :=
  no_overflow low_gain /\ no_overflow mid_gain /\ no_overflow high_gain.


(** The exceptions of Python and numpy in the model. *)
Definition python_exn (e : exn) : Prop :=
  e = ValueError \/ e = ZeroDivisionError \/ e = TypeError \/
  e = OverflowError \/ e = LinAlgError.

(** [m] only adds cells to the store, and raises Python exceptions
    only. *)
Definition tame {A : Type} (m : M A) : Prop :=
  forall h,
    (exists added, snd (m h) = h ++ added) /\
    (forall e, fst (m h) = Raise e -> python_exn e).

(** ** The handlers *)

(** What the handlers take from outside: the directory of line 143,
    the decoder behind [librosa.load] (the samples and the native
    sample rate of a file's contents, if it is audio), the encoder
    behind [sf.write], [float] on a string that denotes a number
    (['inf'] and ['nan'], which [float] accepts too, have no value
    among the reals and are outside the model), werkzeug's
    [secure_filename], and whether the system lets a file be written
    at a path. *)
Variable temp_dir : string.
Variable decode : string -> option (ndarray * Z).
Variable encode : ndarray -> Z -> string.
Variable float_of_str : string -> option R.
Variable secure_filename : string -> string.
Variable writable : string -> bool.

(** [librosa.load(path, sr=None)]: a new array and the native
    rate. *)
Definition librosa_load (path : string) : W (loc * Z) :=
  fun w =>
    match disk_read path (disk w) with
    | None => (Thrown (LoadError path), w)
    | Some content =>
        match decode content with
        | None => (Thrown (LoadError path), w)
        | Some (samples, sr) =>
            (Done (length (store w), sr),
             {| store := store w ++ [samples]; disk := disk w |})
        end
    end.

(** [file.save(path)] of an uploaded file. *)
Definition file_save (path content : string) : W unit :=
  fun w =>
    if writable path
    then (Done tt, {| store := store w; disk := (path, content) :: disk w |})
    else (Thrown (WriteError path), w).

(** [sf.write(path, data, sr)]. *)
Definition sf_write (path : string) (data : loc) (sr : Z) : W unit :=
  samples <~ core (np_load data) ;;
  fun w =>
    if writable path
    then (Done tt,
          {| store := store w;
             disk := (path, encode samples sr) :: disk w |})
    else (Thrown (WriteError path), w).

(** [float(v)]. *)
Definition py_float (v : json) : W R :=
  match v with
  | JNum r => wret r
  | JBool b => wret (if b then 1 else 0)
  | JStr s =>
      match float_of_str s with
      | Some r => wret r
      | None => throw (Py ValueError)
      end
  | JNull | JArr _ | JObj _ => throw (Py TypeError)
  end.

(** Lines 170-182.  The request is the uploaded part ['audio_file'],
    its file name and its contents, if there is one. *)
Definition upload (part : option (string * string))
  : world -> response * world :=
  try_except
    (file <~ match part with
             | Some file => wret file
             | None => throw BadRequest
             end ;;
     let filename := secure_filename (fst file) in
     let filepath := os_path_join temp_dir filename in
     _ <~ file_save filepath (snd file) ;;
     (* Test load *)
     _ <~ librosa_load filepath ;;
     wret (UploadOk filename)).

(** Lines 184-200. *)
Definition process (body : option json) : world -> response * world :=
  try_except
    (data <~ request_json body ;;
     v <~ subscript data "filename" ;;
     filepath <~ os_path_join_value temp_dir v ;;
     '(audio, sr) <~ librosa_load filepath ;;
     v <~ subscript data "low_gain" ;;
     low_gain <~ py_float v ;;
     v <~ subscript data "mid_gain" ;;
     mid_gain <~ py_float v ;;
     v <~ subscript data "high_gain" ;;
     high_gain <~ py_float v ;;
     processed <~ core (apply_eq audio sr low_gain mid_gain high_gain) ;;
     v <~ subscript data "filename" ;;
     pieces <~ split_value v ;;
     stem <~ first_item pieces ;;
     let output_filename := ("eq_" ++ stem ++ ".wav")%string in
     let output_path := os_path_join temp_dir output_filename in
     _ <~ sf_write output_path processed sr ;;
     wret (ProcessOk output_filename)).


(** A step that leaves the files alone. *)
Definition quiet {A : Type} (m : W A) : Prop :=
  forall w, disk (snd (m w)) = disk w.

(** A handler body that has written no file when it raises or
    answers with an error. *)
Definition writes_only_on_success (body : W response) : Prop :=
  forall w,
    match body w with
    | (Done (ErrorJson _), w') | (Thrown _, w') => disk w' = disk w
    | (Done _, _) => True
    end.

(** A request of the shape the page sends, lines 107-112: an object
    with the file name and the three gains, all strings, the gains
    being strings [float] accepts. *)
Definition page_request (fields : list (string * json))
    (name : string) (gl gm gh : R) : Prop :=
  dict_get "filename" fields = Some (JStr name) /\
  (exists s, dict_get "low_gain" fields = Some (JStr s) /\
             float_of_str s = Some gl) /\
  (exists s, dict_get "mid_gain" fields = Some (JStr s) /\
             float_of_str s = Some gm) /\
  (exists s, dict_get "high_gain" fields = Some (JStr s) /\
             float_of_str s = Some gh).

(** What the page itself sends: its sliders go from -12 to 12
    (lines 39-49). *)
Definition slider_request (fields : list (string * json))
    (name : string) (gl gm gh : R) : Prop :=
  page_request fields name gl gm gh /\
  -12 <= gl <= 12 /\ -12 <= gm <= 12 /\ -12 <= gh <= 12.

(** * Running a computation *)

Lemma bind_ok {A B : Type} {m : M A} (k : A -> M B) {h a h1} :
  m h = (Ok a, h1) -> bind m k h = k a h1.
Proof. intros E. unfold bind. now rewrite E. Qed.

Lemma bind_raise {A B : Type} {m : M A} (k : A -> M B) {h e h1} :
  m h = (Raise e, h1) -> bind m k h = (Raise e, h1).
Proof. intros E. unfold bind. now rewrite E. Qed.

(** A run that ends well went through both halves of a [bind]. *)
Lemma bind_inv_ok {A B : Type} {m : M A} {k : A -> M B} {h b h2} :
  bind m k h = (Ok b, h2) ->
  exists a h1, m h = (Ok a, h1) /\ k a h1 = (Ok b, h2).
Proof.
  unfold bind. destruct (m h) as [[a | e] h1]; intros E.
  - now exists a, h1.
  - discriminate.
Qed.

(** The monad laws used below, at each store. *)
Lemma bind_ret {A B : Type} (a : A) (k : A -> M B) h :
  bind (ret a) k h = k a h.
Proof. reflexivity. Qed.

Lemma bind_assoc {A B C : Type} (m : M A) (f : A -> M B) (g : B -> M C) h :
  bind (bind m f) g h = bind m (fun a => bind (f a) g) h.
Proof. unfold bind. now destruct (m h) as [[a | e] h1]. Qed.

Lemma bind_ext {A B : Type} (m : M A) (k k' : A -> M B) h :
  (forall a h1, k a h1 = k' a h1) -> bind m k h = bind m k' h.
Proof.
  intros E. unfold bind. destruct (m h) as [[a | e] h1]; [apply E | easy].
Qed.

(** [apply_eq] is its two stages in sequence. *)
Lemma apply_eq_stages audio sr gl gm gh h :
  apply_eq audio sr gl gm gh h =
  bind (mix_bands audio sr gl gm gh) normalize h.
Proof.
  unfold apply_eq, mix_bands, design_filters, filter_band, gain_stage,
    normalize.
  repeat first
    [ rewrite bind_assoc
    | rewrite bind_ret
    | reflexivity
    | apply bind_ext; intros ? ?
    | match goal with
      | |- context [match ?t with (_, _) => _ end] => destruct t
      end ].
Qed.

(** ** Looking up the store *)

Lemma lookup_new (h : heap) (xs : ndarray) :
  nth_error (h ++ [xs]) (length h) = Some xs.
Proof. rewrite nth_error_app2, Nat.sub_diag by lia. reflexivity. Qed.

Lemma lookup_old (h added : heap) (x : loc) :
  (x < length h)%nat -> nth_error (h ++ added) x = nth_error h x.
Proof. intros L. now rewrite nth_error_app1. Qed.

Lemma lookup_kept {h : heap} (added : heap) {x : loc} {xs : ndarray} :
  nth_error h x = Some xs -> nth_error (h ++ added) x = Some xs.
Proof.
  intros E. rewrite lookup_old; [assumption |].
  apply nth_error_Some. congruence.
Qed.

Lemma lookup_offset (h added : heap) (k : nat) :
  nth_error (h ++ added) (length h + k) = nth_error added k.
Proof.
  rewrite nth_error_app2 by apply Nat.le_add_r.
  f_equal. rewrite Nat.add_comm. apply Nat.add_sub.
Qed.

(** ** Comparisons of reals *)

Lemma Rleb_true x y : x <= y -> Rleb x y = true.
Proof. intros L. unfold Rleb. destruct (Rle_dec x y); [reflexivity | lra]. Qed.

Lemma Rleb_false x y : y < x -> Rleb x y = false.
Proof. intros L. unfold Rleb. destruct (Rle_dec x y); [lra | reflexivity]. Qed.

Lemma Rltb_true x y : x < y -> Rltb x y = true.
Proof. intros L. unfold Rltb. destruct (Rlt_dec x y); [reflexivity | lra]. Qed.

Lemma Rltb_false x y : y <= x -> Rltb x y = false.
Proof. intros L. unfold Rltb. destruct (Rlt_dec x y); [lra | reflexivity]. Qed.

Lemma Reqb_true x : Reqb x x = true.
Proof. unfold Reqb. destruct (Req_dec_T x x); [reflexivity | congruence]. Qed.

Lemma Reqb_false x y : x <> y -> Reqb x y = false.
Proof. intros N. unfold Reqb. destruct (Req_dec_T x y); [congruence | reflexivity]. Qed.

(** ** The primitives, run *)

Lemma np_load_ok {h x xs} :
  nth_error h x = Some xs -> np_load x h = (Ok xs, h).
Proof. intros E. unfold np_load. now rewrite E. Qed.

Lemma py_truediv_ok x y h :
  y <> 0 -> py_truediv x y h = (Ok (x / y), h).
Proof. intros N. unfold py_truediv. now rewrite Reqb_false. Qed.

Lemma py_truediv_zero x h :
  py_truediv x 0 h = (Raise ZeroDivisionError, h).
Proof. unfold py_truediv. now rewrite Reqb_true. Qed.

(** ** The range of [10 ** x] *)

Lemma float_max_pos : 0 < float_max.
Proof. unfold float_max. apply IZR_lt. vm_compute. reflexivity. Qed.

Lemma py_pow10_pos x : 0 < py_pow10 x.
Proof. unfold py_pow10, Rpower. apply exp_pos. Qed.

Lemma py_pow10_le x y : x <= y -> py_pow10 x <= py_pow10 y.
Proof. intros L. unfold py_pow10. apply Rle_Rpower; lra. Qed.

(** [10 ** n] for a natural number [n]. *)
Lemma py_pow10_nat (n : nat) :
  py_pow10 (IZR (Z.of_nat n)) = IZR (10 ^ Z.of_nat n).
Proof.
  unfold py_pow10. rewrite <- INR_IZR_INZ, Rpower_pow by lra.
  now rewrite pow_IZR.
Qed.

Lemma ten_to_308 : (10 ^ 308 <= 2 ^ 1024 - 2 ^ 971)%Z.
Proof. vm_compute. discriminate. Qed.

Lemma ten_to_309 : (2 ^ 1024 - 2 ^ 971 < 10 ^ 309)%Z.
Proof. vm_compute. reflexivity. Qed.

(** Up to [10 ** 308] the result is a double. *)
Lemma py_pow10_fits x : x <= 308 -> py_pow10 x <= float_max.
Proof.
  intros L. apply Rle_trans with (py_pow10 308); [now apply py_pow10_le |].
  replace 308 with (IZR (Z.of_nat 308)) by f_equal.
  rewrite py_pow10_nat. unfold float_max. apply IZR_le. exact ten_to_308.
Qed.

(** From [10 ** 309] on it is not. *)
Lemma py_pow10_out x : 309 <= x -> float_max < py_pow10 x.
Proof.
  intros L. apply Rlt_le_trans with (py_pow10 309); [| now apply py_pow10_le].
  replace 309 with (IZR (Z.of_nat 309)) by f_equal.
  rewrite py_pow10_nat. unfold float_max. apply IZR_lt. exact ten_to_309.
Qed.

(** Gains up to 6160 dB have a factor; from 6180 dB on they have
    none. *)
Lemma no_overflow_below gain : gain <= 6160 -> no_overflow gain.
Proof. intros L. apply py_pow10_fits. lra. Qed.

Lemma overflow_above gain : 6180 <= gain -> ~ no_overflow gain.
Proof.
  intros L F. unfold no_overflow in F.
  pose proof (py_pow10_out (gain / 20)) as Out. unfold py_pow10 in Out. lra.
Qed.

(** The gains of the sliders have a factor. *)
Lemma slider_gains_fit gl gm gh :
  -12 <= gl <= 12 -> -12 <= gm <= 12 -> -12 <= gh <= 12 ->
  gains_fit gl gm gh.
Proof. intros Hl Hm Hh. repeat split; apply no_overflow_below; lra. Qed.

Lemma float_pow10_ok {gain} h :
  no_overflow gain ->
  float_pow10 (gain / 20) h = (Ok (py_pow10 (gain / 20)), h).
Proof. intros F. unfold float_pow10. now rewrite Rltb_false. Qed.

Lemma float_pow10_overflow {gain} h :
  ~ no_overflow gain ->
  float_pow10 (gain / 20) h = (Raise OverflowError, h).
Proof.
  intros F. unfold float_pow10. rewrite Rltb_true; [reflexivity |].
  unfold no_overflow in F. unfold py_pow10. lra.
Qed.

Lemma np_mul_scalar_ok {h x xs} k :
  nth_error h x = Some xs ->
  np_mul_scalar x k h = (Ok (length h), h ++ [scaled k xs]).
Proof.
  intros E. unfold np_mul_scalar.
  rewrite (bind_ok _ (np_load_ok E)). reflexivity.
Qed.

Lemma np_div_scalar_ok {h x xs} k :
  nth_error h x = Some xs ->
  np_div_scalar x k h = (Ok (length h), h ++ [map (fun v => v / k) xs]).
Proof.
  intros E. unfold np_div_scalar.
  rewrite (bind_ok _ (np_load_ok E)). reflexivity.
Qed.

Lemma np_abs_ok {h x xs} :
  nth_error h x = Some xs ->
  np_abs x h = (Ok (length h), h ++ [map Rabs xs]).
Proof.
  intros E. unfold np_abs.
  rewrite (bind_ok _ (np_load_ok E)). reflexivity.
Qed.

Lemma np_max_ok {h x v vs} :
  nth_error h x = Some (v :: vs) ->
  np_max x h = (Ok (fold_left Rmax vs v), h).
Proof.
  intros E. unfold np_max.
  rewrite (bind_ok _ (np_load_ok E)). reflexivity.
Qed.

Lemma np_max_empty {h x} :
  nth_error h x = Some [] -> np_max x h = (Raise ValueError, h).
Proof.
  intros E. unfold np_max.
  rewrite (bind_ok _ (np_load_ok E)). reflexivity.
Qed.

Lemma np_add_ok {h x y xs ys} :
  nth_error h x = Some xs -> nth_error h y = Some ys ->
  length xs = length ys ->
  np_add x y h = (Ok (length h), h ++ [zip_add xs ys]).
Proof.
  intros Ex Ey L. unfold np_add.
  rewrite (bind_ok _ (np_load_ok Ex)).
  rewrite (bind_ok _ (np_load_ok Ey)).
  unfold broadcast_add. rewrite L, Nat.eqb_refl. reflexivity.
Qed.

Lemma filtfilt_ok {h} b a {x xs} :
  nth_error h x = Some xs ->
  (3 * Nat.max (length a) (length b) < length xs)%nat ->
  lfilter_zi_solvable b a = true ->
  filtfilt b a x h = (Ok (length h), h ++ [filtfilt_kernel b a xs]).
Proof.
  intros E L Z. unfold filtfilt.
  rewrite (bind_ok _ (np_load_ok E)), Z.
  destruct (Nat.leb_spec (length xs) (3 * Nat.max (length a) (length b)));
    [lia | reflexivity].
Qed.

Lemma filtfilt_unsolvable {h} b a {x xs} :
  nth_error h x = Some xs ->
  (3 * Nat.max (length a) (length b) < length xs)%nat ->
  lfilter_zi_solvable b a = false ->
  filtfilt b a x h = (Raise LinAlgError, h).
Proof.
  intros E L Z. unfold filtfilt.
  rewrite (bind_ok _ (np_load_ok E)), Z.
  destruct (Nat.leb_spec (length xs) (3 * Nat.max (length a) (length b)));
    [lia | reflexivity].
Qed.

Lemma filtfilt_short {h} b a {x xs} :
  nth_error h x = Some xs ->
  (length xs <= 3 * Nat.max (length a) (length b))%nat ->
  filtfilt b a x h = (Raise ValueError, h).
Proof.
  intros E L. unfold filtfilt.
  rewrite (bind_ok _ (np_load_ok E)).
  destruct (Nat.leb_spec (length xs) (3 * Nat.max (length a) (length b)));
    [reflexivity | lia].
Qed.

(** ** Quotients by the Nyquist frequency *)

Lemma quotient_pos a n : 0 < n -> 0 < a -> 0 < a / n.
Proof. intros Hn Ha. apply Rdiv_lt_0_compat; assumption. Qed.

Lemma quotient_lt a b n : 0 < n -> a < b -> a / n < b / n.
Proof.
  intros Hn L. unfold Rdiv. apply Rmult_lt_compat_r; [| assumption].
  now apply Rinv_0_lt_compat.
Qed.

Lemma quotient_le a b n : 0 < n -> a <= b -> a / n <= b / n.
Proof.
  intros Hn L. unfold Rdiv. apply Rmult_le_compat_r; [| assumption].
  left. now apply Rinv_0_lt_compat.
Qed.

Lemma quotient_self n : n <> 0 -> n / n = 1.
Proof. intros N. now field. Qed.

Lemma quotient_lt_1 a n : 0 < n -> a < n -> a / n < 1.
Proof.
  intros Hn L. rewrite <- (quotient_self n) by lra. now apply quotient_lt.
Qed.

Lemma quotient_ge_1 a n : 0 < n -> n <= a -> 1 <= a / n.
Proof.
  intros Hn L. rewrite <- (quotient_self n) by lra. now apply quotient_le.
Qed.

Lemma quotient_le_0 a n : 0 < n -> a <= 0 -> a / n <= 0.
Proof.
  intros Hn L. replace 0 with (0 / n) by (field; lra). now apply quotient_le.
Qed.

Lemma quotient_neg_ge_1 a n : n < 0 -> a <= n -> 1 <= a / n.
Proof.
  intros Hn L. replace (a / n) with ((- a) / (- n)) by (field; lra).
  apply quotient_ge_1; lra.
Qed.

(** ** The checks of [butter] *)

Lemma butter_ok_1 N {w bt} h :
  0 < w < 1 -> bt <> band ->
  butter N (Wn1 w) bt h = (Ok (butter_design N (Wn1 w) bt), h).
Proof.
  intros [L0 L1] Nb. unfold butter, any_critical.
  rewrite Rleb_false, Rleb_false by lra.
  destruct bt; [reflexivity | congruence | reflexivity].
Qed.

Lemma butter_ok_2 N {w0 w1} h :
  0 < w0 -> w0 < w1 -> w1 < 1 ->
  butter N (Wn2 w0 w1) band h = (Ok (butter_design N (Wn2 w0 w1) band), h).
Proof.
  intros L0 L1 L2. unfold butter, any_critical.
  rewrite !Rleb_false, Rltb_true by lra. reflexivity.
Qed.

Lemma butter_bad_1 N {w} bt h :
  w <= 0 \/ 1 <= w -> butter N (Wn1 w) bt h = (Raise ValueError, h).
Proof.
  intros [L | L]; unfold butter, any_critical.
  - now rewrite Rleb_true.
  - destruct (Rleb w 0); [reflexivity |]. now rewrite Rleb_true.
Qed.

Lemma butter_bad_2 N {w0 w1} bt h :
  w1 <= w0 -> butter N (Wn2 w0 w1) bt h = (Raise ValueError, h).
Proof.
  intros L. unfold butter, any_critical.
  destruct (Rleb w0 0 || Rleb w1 0); [reflexivity |].
  now rewrite Rltb_false.
Qed.

(** [butter] gives the designed coefficients or raises [ValueError],
    and leaves the store alone. *)
Lemma butter_cases N Wn bt h :
  butter N Wn bt h = (Ok (butter_design N Wn bt), h) \/
  butter N Wn bt h = (Raise ValueError, h).
Proof.
  unfold butter.
  destruct (any_critical (fun w => Rleb w 0) Wn); [now right |].
  destruct Wn as [w | w0 w1].
  - destruct (any_critical (fun w => Rleb 1 w) (Wn1 w)); [now right |].
    destruct bt; [now left | now right | now left].
  - destruct (negb (Rltb w0 w1)); [now right |].
    destruct (any_critical (fun w => Rleb 1 w) (Wn2 w0 w1)); [now right |].
    destruct bt; [now right | now left | now right].
Qed.

(** ** The design stage *)

Lemma nyquist_of_rate sr : (8000 < sr)%Z -> 4000 < IZR sr / 2.
Proof. intros L. apply IZR_lt in L. lra. Qed.

(** Above 8000 Hz the three designs succeed. *)
Lemma design_filters_ok {sr} h :
  (8000 < sr)%Z -> design_filters sr h = (Ok (designs sr), h).
Proof.
  intros L. pose proof (nyquist_of_rate _ L) as Hn.
  unfold design_filters, designs.
  set (n := IZR sr / 2) in *.
  assert (Hn0 : n <> 0) by lra.
  assert (Hlo : 250 < Rmin 4000 (n - 1)) by (apply Rmin_glb_lt; lra).
  assert (Hhi : Rmin 4000 (n - 1) < n)
    by (apply Rle_lt_trans with (n - 1); [apply Rmin_r | lra]).
  assert (W : 0 < Rmin 250 (n - 1) / n < 1).
  { rewrite Rmin_left by lra.
    split; [apply quotient_pos | apply quotient_lt_1]; lra. }
  assert (W0 : 0 < Rmax 250 1 / n).
  { rewrite Rmax_left by lra. apply quotient_pos; lra. }
  assert (W01 : Rmax 250 1 / n < Rmin 4000 (n - 1) / n).
  { rewrite Rmax_left by lra. apply quotient_lt; lra. }
  assert (W1 : Rmin 4000 (n - 1) / n < 1) by (apply quotient_lt_1; lra).
  assert (W' : 0 < Rmax 4000 1 / n < 1).
  { rewrite Rmax_left by lra.
    split; [apply quotient_pos | apply quotient_lt_1]; lra. }
  assert (Dl : low <> band) by discriminate.
  assert (Dh : high <> band) by discriminate.
  rewrite (bind_ok _ (py_truediv_ok _ _ _ Hn0)).
  rewrite (bind_ok _ (butter_ok_1 _ _ W Dl)).
  rewrite (bind_ok _ (py_truediv_ok _ _ _ Hn0)).
  rewrite (bind_ok _ (py_truediv_ok _ _ _ Hn0)).
  rewrite (bind_ok _ (butter_ok_2 _ _ W0 W01 W1)).
  rewrite (bind_ok _ (py_truediv_ok _ _ _ Hn0)).
  rewrite (bind_ok _ (butter_ok_1 _ _ W' Dh)).
  reflexivity.
Qed.

(** A zero sample rate divides by zero on line 149. *)
Lemma design_filters_zero h :
  design_filters 0 h = (Raise ZeroDivisionError, h).
Proof.
  unfold design_filters.
  replace (IZR 0 / 2) with 0 by lra.
  now rewrite (bind_raise _ (py_truediv_zero _ _)).
Qed.

(** At 8000 Hz and below one of the three designs is refused. *)
Lemma design_filters_refused {sr} h :
  sr <> 0%Z -> (sr <= 8000)%Z ->
  design_filters sr h = (Raise ValueError, h).
Proof.
  intros N L. apply IZR_le in L. apply not_0_IZR in N.
  unfold design_filters. set (n := IZR sr / 2).
  assert (Hn0 : n <> 0) by (unfold n; lra).
  assert (Hn : n <= 4000) by (unfold n; lra).
  assert (Dl : low <> band) by discriminate.
  rewrite (bind_ok _ (py_truediv_ok _ _ _ Hn0)).
  destruct (Rlt_le_dec n 0) as [Neg | Pos].
  { (* a negative rate: the low cutoff is above 1 *)
    assert (W : Rmin 250 (n - 1) / n <= 0 \/ 1 <= Rmin 250 (n - 1) / n).
    { right. apply quotient_neg_ge_1; [assumption |].
      rewrite Rmin_right by lra. lra. }
    now rewrite (bind_raise _ (butter_bad_1 _ _ _ W)). }
  assert (Hpos : 0 < n) by lra.
  destruct (Rle_lt_dec n 1) as [Small | Big].
  { (* sr is 1 or 2: the low cutoff is not positive *)
    assert (W : Rmin 250 (n - 1) / n <= 0 \/ 1 <= Rmin 250 (n - 1) / n).
    { left. apply quotient_le_0; [assumption |].
      rewrite Rmin_right by lra. lra. }
    now rewrite (bind_raise _ (butter_bad_1 _ _ _ W)). }
  assert (W : 0 < Rmin 250 (n - 1) / n < 1).
  { split.
    - apply quotient_pos; [assumption |]. apply Rmin_glb_lt; lra.
    - apply quotient_lt_1; [assumption |].
      apply Rle_lt_trans with (n - 1); [apply Rmin_r | lra]. }
  rewrite (bind_ok _ (butter_ok_1 _ _ W Dl)).
  rewrite (bind_ok _ (py_truediv_ok _ _ _ Hn0)).
  rewrite (bind_ok _ (py_truediv_ok _ _ _ Hn0)).
  destruct (Rle_lt_dec n 251) as [Mid | Wide].
  { (* the band has collapsed *)
    assert (W1 : Rmin 4000 (n - 1) / n <= Rmax 250 1 / n).
    { apply quotient_le; [assumption |]. rewrite Rmax_left by lra.
      apply Rle_trans with (n - 1); [apply Rmin_r | lra]. }
    now rewrite (bind_raise _ (butter_bad_2 _ _ _ W1)). }
  assert (W0 : 0 < Rmax 250 1 / n).
  { rewrite Rmax_left by lra. apply quotient_pos; lra. }
  assert (W01 : Rmax 250 1 / n < Rmin 4000 (n - 1) / n).
  { rewrite Rmax_left by lra. apply quotient_lt; [assumption |].
    apply Rmin_glb_lt; lra. }
  assert (W1 : Rmin 4000 (n - 1) / n < 1).
  { apply quotient_lt_1; [assumption |].
    apply Rle_lt_trans with (n - 1); [apply Rmin_r | lra]. }
  rewrite (bind_ok _ (butter_ok_2 _ _ W0 W01 W1)).
  rewrite (bind_ok _ (py_truediv_ok _ _ _ Hn0)).
  (* the high cutoff is not below the Nyquist frequency *)
  assert (W' : Rmax 4000 1 / n <= 0 \/ 1 <= Rmax 4000 1 / n).
  { right. apply quotient_ge_1; [assumption |]. rewrite Rmax_left; lra. }
  now rewrite (bind_raise _ (butter_bad_1 _ _ _ W')).
Qed.

(** ** Lengths *)

Lemma length_scaled k xs : length (scaled k xs) = length xs.
Proof. apply length_map. Qed.

Lemma length_zip_add xs ys :
  length xs = length ys -> length (zip_add xs ys) = length xs.
Proof.
  revert ys. induction xs as [| x xs IH]; intros [| y ys] L;
    simpl in *; try discriminate; [reflexivity |].
  f_equal. apply IH. now injection L.
Qed.

Lemma length_band_samples t xs gain :
  (padlen t < length xs)%nat -> length (band_samples t xs gain) = length xs.
Proof.
  intros L. unfold band_samples, filtered_samples.
  rewrite length_scaled. now apply filtfilt_length.
Qed.

Lemma length_mixed_samples {xs sr} gl gm gh :
  long_enough sr (length xs) ->
  length (mixed_samples xs sr gl gm gh) = length xs.
Proof.
  intros (Ll & Lm & Lh). unfold mixed_samples.
  rewrite !length_zip_add; rewrite ?length_zip_add;
    rewrite ?length_band_samples; auto; rewrite ?length_band_samples; auto.
Qed.

(** ** One band *)

Lemma filter_band_ok t {audio xs} gain {h} :
  nth_error h audio = Some xs -> (padlen t < length xs)%nat ->
  zi_solvable t = true -> no_overflow gain ->
  filter_band t audio gain h =
    (Ok (length h + 1)%nat,
     h ++ [filtered_samples t xs; band_samples t xs gain]).
Proof.
  intros E L Z F. destruct t as [b a]. unfold filter_band, gain_stage.
  rewrite (bind_ok _ (filtfilt_ok _ _ E L Z)).
  rewrite (bind_ok _ (float_pow10_ok _ F)).
  rewrite (np_mul_scalar_ok _ (lookup_new _ _)).
  rewrite length_app, <- app_assoc. reflexivity.
Qed.

Lemma filter_band_short t {audio xs} gain {h} :
  nth_error h audio = Some xs -> (length xs <= padlen t)%nat ->
  filter_band t audio gain h = (Raise ValueError, h).
Proof.
  intros E L. destruct t as [b a]. unfold filter_band.
  now rewrite (bind_raise _ (filtfilt_short _ _ E L)).
Qed.

(** The steady state is looked for after the length check. *)
Lemma filter_band_unsolvable t {audio xs} gain {h} :
  nth_error h audio = Some xs -> (padlen t < length xs)%nat ->
  zi_solvable t = false ->
  filter_band t audio gain h = (Raise LinAlgError, h).
Proof.
  intros E L Z. destruct t as [b a]. unfold filter_band.
  now rewrite (bind_raise _ (filtfilt_unsolvable _ _ E L Z)).
Qed.

(** The gain is converted after the band is filtered. *)
Lemma filter_band_overflow t {audio xs} gain {h} :
  nth_error h audio = Some xs -> (padlen t < length xs)%nat ->
  zi_solvable t = true -> ~ no_overflow gain ->
  filter_band t audio gain h =
    (Raise OverflowError, h ++ [filtered_samples t xs]).
Proof.
  intros E L Z F. destruct t as [b a]. unfold filter_band, gain_stage.
  rewrite (bind_ok _ (filtfilt_ok _ _ E L Z)).
  now rewrite (bind_raise _ (float_pow10_overflow _ F)).
Qed.

(** A band that is returned has passed the three of them. *)
Lemma filter_band_inv_ok {t audio xs gain h p h1} :
  nth_error h audio = Some xs ->
  filter_band t audio gain h = (Ok p, h1) ->
  (padlen t < length xs)%nat /\ zi_solvable t = true /\ no_overflow gain.
Proof.
  intros E Run.
  destruct (le_lt_dec (length xs) (padlen t)) as [S | L].
  { rewrite (filter_band_short _ _ E S) in Run. discriminate. }
  destruct (zi_solvable t) eqn:Z.
  2:{ rewrite (filter_band_unsolvable _ _ E L Z) in Run. discriminate. }
  destruct (Rle_dec (py_pow10 (gain / 20)) float_max) as [F | F].
  2:{ rewrite (filter_band_overflow _ _ E L Z F) in Run. discriminate. }
  auto.
Qed.

(** ** The pad lengths of the three filters *)

Lemma padlen_design N Wn bt :
  padlen (butter_design N Wn bt) = (3 * S (filter_order N bt))%nat.
Proof.
  unfold padlen. destruct (butter_taps N Wn bt) as [-> ->].
  now rewrite Nat.max_id.
Qed.

Lemma padlen_low sr : padlen (low_design sr) = 15%nat.
Proof. apply padlen_design. Qed.

Lemma padlen_mid sr : padlen (mid_design sr) = 27%nat.
Proof. apply padlen_design. Qed.

Lemma padlen_high sr : padlen (high_design sr) = 15%nat.
Proof. apply padlen_design. Qed.

Lemma long_enough_27 sr n : long_enough sr n <-> (27 < n)%nat.
Proof.
  unfold long_enough. rewrite padlen_low, padlen_mid, padlen_high. lia.
Qed.

(** ** Lines 146-159 *)

Lemma designs_eta sr :
  designs sr = (low_design sr, mid_design sr, high_design sr).
Proof. reflexivity. Qed.

Lemma mix_bands_ok {audio xs sr} gl gm gh {h} :
  (8000 < sr)%Z -> nth_error h audio = Some xs ->
  long_enough sr (length xs) -> filters_start sr -> gains_fit gl gm gh ->
  mix_bands audio sr gl gm gh h =
    (Ok (length h + 7)%nat, h ++ mix_cells xs sr gl gm gh).
Proof.
  intros Hsr E (Ll & Lm & Lh) (Zl & Zm & Zh) (Fl & Fm & Fh).
  unfold mix_bands.
  rewrite (bind_ok _ (design_filters_ok _ Hsr)), designs_eta.
  rewrite (bind_ok _ (filter_band_ok _ _ E Ll Zl Fl)).
  rewrite (bind_ok _ (filter_band_ok _ _ (lookup_kept _ E) Lm Zm Fm)).
  rewrite <- app_assoc. simpl app.
  rewrite (bind_ok _ (filter_band_ok _ _ (lookup_kept _ E) Lh Zh Fh)).
  rewrite <- app_assoc. simpl app.
  rewrite !length_app. simpl length.
  rewrite <- !Nat.add_assoc. simpl Nat.add.
  erewrite bind_ok.
  2:{ eapply np_add_ok.
      - rewrite lookup_offset. reflexivity.
      - rewrite lookup_offset. reflexivity.
      - now rewrite !length_band_samples. }
  rewrite <- app_assoc. simpl app.
  rewrite !length_app. simpl length.
  erewrite np_add_ok.
  2:{ rewrite lookup_offset. reflexivity. }
  2:{ rewrite lookup_offset. reflexivity. }
  2:{ rewrite length_zip_add; now rewrite !length_band_samples. }
  rewrite <- app_assoc. simpl app. rewrite !length_app. simpl length.
  reflexivity.
Qed.

(** A buffer that is too short for the low-pass filter stops the run
    at line 154, before anything is allocated. *)
Lemma mix_bands_too_short_for_low {audio xs sr} gl gm gh {h} :
  (8000 < sr)%Z -> nth_error h audio = Some xs ->
  (length xs <= padlen (low_design sr))%nat ->
  mix_bands audio sr gl gm gh h = (Raise ValueError, h).
Proof.
  intros Hsr E Short. unfold mix_bands.
  rewrite (bind_ok _ (design_filters_ok _ Hsr)), designs_eta.
  now rewrite (bind_raise _ (filter_band_short _ _ E Short)).
Qed.

(** A buffer of at most 27 samples stops the run with [ValueError]
    at the first length check it fails, provided the low band, which
    16 to 27 samples let through, has been computed; the band stays
    in the store. *)
Lemma mix_bands_short {audio xs sr} gl gm gh {h} :
  (8000 < sr)%Z -> nth_error h audio = Some xs ->
  (length xs <= 27)%nat ->
  ((15 < length xs)%nat ->
   zi_solvable (low_design sr) = true /\ no_overflow gl) ->
  exists added, mix_bands audio sr gl gm gh h = (Raise ValueError, h ++ added).
Proof.
  intros Hsr E Short Low. unfold mix_bands.
  rewrite (bind_ok _ (design_filters_ok _ Hsr)), designs_eta.
  destruct (le_lt_dec (length xs) 15) as [Sl | Ll].
  { exists []. rewrite app_nil_r.
    rewrite <- (padlen_low sr) in Sl.
    now rewrite (bind_raise _ (filter_band_short _ _ E Sl)). }
  destruct (Low Ll) as [Zl Fl]. rewrite <- (padlen_low sr) in Ll.
  rewrite (bind_ok _ (filter_band_ok _ _ E Ll Zl Fl)).
  rewrite <- (padlen_mid sr) in Short. eexists.
  now rewrite (bind_raise _ (filter_band_short _ _ (lookup_kept _ E) Short)).
Qed.

(** ** The peak *)

Lemma fold_max_ge_init vs v : v <= fold_left Rmax vs v.
Proof.
  revert v. induction vs as [| w vs IH]; intros v; simpl; [lra |].
  apply Rle_trans with (Rmax v w); [apply Rmax_l | apply IH].
Qed.

Lemma fold_max_ge_elem vs v x : In x vs -> x <= fold_left Rmax vs v.
Proof.
  revert v. induction vs as [| w vs IH]; intros v Hx; simpl in *;
    [contradiction |]. destruct Hx as [Hx | Hx].
  - subst w. apply Rle_trans with (Rmax v x);
      [apply Rmax_r | apply fold_max_ge_init].
  - now apply IH.
Qed.

(** The maximum is one of the values. *)
Lemma fold_max_attained vs v :
  fold_left Rmax vs v = v \/ In (fold_left Rmax vs v) vs.
Proof.
  revert v. induction vs as [| w vs IH]; intros v; simpl; [now left |].
  destruct (IH (Rmax v w)) as [H | H]; [| now right; right].
  rewrite H. unfold Rmax. destruct (Rle_dec v w); [right | left]; auto.
Qed.

Lemma peak_ge ys y : In y ys -> Rabs y <= peak ys.
Proof.
  unfold peak. destruct ys as [| y0 ys]; [intros [] |].
  simpl. intros [Hy | Hy].
  - subst y0. apply fold_max_ge_init.
  - apply fold_max_ge_elem. now apply in_map.
Qed.

Lemma peak_nonneg ys : 0 <= peak ys.
Proof.
  destruct ys as [| y ys]; [unfold peak; simpl; lra |].
  apply Rle_trans with (Rabs y); [apply Rabs_pos | apply peak_ge; now left].
Qed.

(** ** Lines 160-164 *)

Lemma normalize_ok {p ys h} :
  nth_error h p = Some ys -> ys <> [] ->
  normalize p h =
    if Rltb 1 (peak ys)
    then (Ok (length h + 1)%nat,
          h ++ [map Rabs ys; map (fun v => v / peak ys) ys])
    else (Ok p, h ++ [map Rabs ys]).
Proof.
  intros E Hne. destruct ys as [| y ys]; [congruence |].
  unfold normalize.
  rewrite (bind_ok _ (np_abs_ok E)). simpl map.
  rewrite (bind_ok _ (np_max_ok (lookup_new _ _))).
  change (fold_left Rmax (map Rabs ys) (Rabs y)) with (peak (y :: ys)).
  destruct (Rltb 1 (peak (y :: ys))); [| reflexivity].
  rewrite (np_div_scalar_ok _ (lookup_kept _ E)).
  rewrite length_app, <- app_assoc. reflexivity.
Qed.

(** The maximum of no samples is a [ValueError]. *)
Lemma normalize_empty {p h} :
  nth_error h p = Some [] ->
  normalize p h = (Raise ValueError, h ++ [[]]).
Proof.
  intros E. unfold normalize.
  rewrite (bind_ok _ (np_abs_ok E)).
  now rewrite (bind_raise _ (np_max_empty (lookup_new _ _))).
Qed.

(** In both branches the returned location holds
    [normalized_samples]. *)
Lemma normalize_result {p ys h} :
  nth_error h p = Some ys -> ys <> [] ->
  exists out added,
    normalize p h = (Ok out, h ++ added) /\
    nth_error (h ++ added) out = Some (normalized_samples ys).
Proof.
  intros E Hne. rewrite (normalize_ok E Hne). unfold normalized_samples.
  destruct (Rltb 1 (peak ys)).
  - do 2 eexists. split; [reflexivity |].
    rewrite lookup_offset. reflexivity.
  - do 2 eexists. split; [reflexivity |]. now apply lookup_kept.
Qed.

(** ** The whole call *)

Lemma mixed_samples_nonempty xs sr gl gm gh :
  long_enough sr (length xs) -> mixed_samples xs sr gl gm gh <> [].
Proof.
  intros L E. apply (f_equal (@length R)) in E.
  rewrite (length_mixed_samples _ _ _ L) in E.
  destruct L as (L & _). simpl in E. lia.
Qed.

(** Above 8000 Hz and with a buffer longer than the three pad
    lengths, [apply_eq] returns, and this is what it returns. *)
Lemma apply_eq_ok {audio xs sr} gl gm gh {h} :
  (8000 < sr)%Z -> nth_error h audio = Some xs ->
  long_enough sr (length xs) -> filters_start sr -> gains_fit gl gm gh ->
  exists out added,
    apply_eq audio sr gl gm gh h = (Ok out, h ++ added) /\
    nth_error (h ++ added) out =
      Some (normalized_samples (mixed_samples xs sr gl gm gh)).
Proof.
  intros Hsr E L Z F. rewrite apply_eq_stages.
  rewrite (bind_ok _ (mix_bands_ok _ _ _ Hsr E L Z F)).
  destruct (@normalize_result (length h + 7)
              (mixed_samples xs sr gl gm gh)
              (h ++ mix_cells xs sr gl gm gh))
    as (out & added & Run & Res).
  - rewrite lookup_offset. reflexivity.
  - now apply mixed_samples_nonempty.
  - exists out, (mix_cells xs sr gl gm gh ++ added).
    rewrite app_assoc. now split.
Qed.

(** When [mix_bands] returns, the rate was above 8000 Hz, the
    buffer was long enough, the three steady states were found and
    the three gains had a factor. *)
Lemma mix_bands_inv_ok {audio xs sr gl gm gh h p h1} :
  nth_error h audio = Some xs ->
  mix_bands audio sr gl gm gh h = (Ok p, h1) ->
  (8000 < sr)%Z /\ long_enough sr (length xs) /\
  filters_start sr /\ gains_fit gl gm gh.
Proof.
  intros E Mix.
  destruct (Z.eq_dec sr 0) as [Z0 | NZ].
  { subst sr. unfold mix_bands in Mix.
    rewrite (bind_raise _ (design_filters_zero _)) in Mix. discriminate. }
  destruct (Z_le_gt_dec sr 8000) as [Low | High].
  { unfold mix_bands in Mix.
    rewrite (bind_raise _ (design_filters_refused _ NZ Low)) in Mix.
    discriminate. }
  assert (Hsr : (8000 < sr)%Z) by lia. split; [assumption |].
  unfold mix_bands in Mix.
  rewrite (bind_ok _ (design_filters_ok _ Hsr)), designs_eta in Mix.
  destruct (bind_inv_ok Mix) as (pl & hl & Bl & Mix1).
  destruct (filter_band_inv_ok E Bl) as (Ll & Zl & Fl).
  rewrite (filter_band_ok _ _ E Ll Zl Fl) in Bl. injection Bl as <- <-.
  destruct (bind_inv_ok Mix1) as (pm & hm & Bm & Mix2).
  destruct (filter_band_inv_ok (lookup_kept _ E) Bm) as (Lm & Zm & Fm).
  rewrite (filter_band_ok _ _ (lookup_kept _ E) Lm Zm Fm) in Bm.
  injection Bm as <- <-.
  destruct (bind_inv_ok Mix2) as (ph & hh & Bh & _).
  destruct (filter_band_inv_ok (lookup_kept _ (lookup_kept _ E)) Bh)
    as (Lh & Zh & Fh).
  repeat split; assumption.
Qed.

Lemma apply_eq_inv_ok {audio xs sr gl gm gh h out h'} :
  nth_error h audio = Some xs ->
  apply_eq audio sr gl gm gh h = (Ok out, h') ->
  (8000 < sr)%Z /\ long_enough sr (length xs) /\
  filters_start sr /\ gains_fit gl gm gh.
Proof.
  intros E Run. rewrite apply_eq_stages in Run.
  destruct (bind_inv_ok Run) as (p & h1 & Mix & _).
  exact (mix_bands_inv_ok E Mix).
Qed.


(** The buffer [apply_eq] returns is one it has allocated, never one
    of the caller's: in the branch that does not divide, line 164
    returns the sum of line 159. *)
Lemma apply_eq_returns_fresh audio xs sr gl gm gh h out h' :
  nth_error h audio = Some xs ->
  apply_eq audio sr gl gm gh h = (Ok out, h') ->
  (length h <= out)%nat.
Proof.
  intros E Run. destruct (apply_eq_inv_ok E Run) as (Hsr & L & Z & F).
  rewrite apply_eq_stages, (bind_ok _ (mix_bands_ok gl gm gh Hsr E L Z F))
    in Run.
  cbv beta in Run.
  rewrite (@normalize_ok (length h + 7) (mixed_samples xs sr gl gm gh)) in Run.
  - destruct (Rltb 1 (peak (mixed_samples xs sr gl gm gh)));
      injection Run as <- _.
    + rewrite length_app, <- Nat.add_assoc. apply Nat.le_add_r.
    + apply Nat.le_add_r.
  - rewrite lookup_offset. reflexivity.
  - now apply mixed_samples_nonempty.
Qed.

(** At a non-zero rate of 8000 Hz or less, [apply_eq] raises
    [ValueError] before it touches the buffer. *)
Lemma apply_eq_refused_rate audio sr gl gm gh h :
  sr <> 0%Z -> (sr <= 8000)%Z ->
  apply_eq audio sr gl gm gh h = (Raise ValueError, h).
Proof.
  intros NZ Low. rewrite apply_eq_stages. unfold mix_bands.
  now rewrite (bind_raise _ (bind_raise _ (design_filters_refused h NZ Low))).
Qed.

(** A low gain without a factor stops the run on line 154, after
    the low band has been filtered. *)
Lemma apply_eq_low_gain_overflow {audio xs sr} gl gm gh {h} :
  (8000 < sr)%Z -> nth_error h audio = Some xs -> (15 < length xs)%nat ->
  zi_solvable (low_design sr) = true -> ~ no_overflow gl ->
  apply_eq audio sr gl gm gh h =
    (Raise OverflowError, h ++ [filtered_samples (low_design sr) xs]).
Proof.
  intros Hsr E L Zl Fl. rewrite <- (padlen_low sr) in L.
  assert (Mix : mix_bands audio sr gl gm gh h =
                (Raise OverflowError,
                 h ++ [filtered_samples (low_design sr) xs])).
  { unfold mix_bands.
    rewrite (bind_ok _ (design_filters_ok _ Hsr)), designs_eta.
    now rewrite (bind_raise _ (filter_band_overflow _ _ E L Zl Fl)). }
  rewrite apply_eq_stages. now rewrite (bind_raise _ Mix).
Qed.

(** * Cells are only added, and only Python exceptions are raised *)

Lemma tame_ret {A : Type} (a : A) : tame (ret a).
Proof.
  intros h. split.
  - exists []. simpl. now rewrite app_nil_r.
  - simpl. discriminate.
Qed.

Lemma tame_raise {A : Type} (e : exn) : python_exn e -> tame (@raise A e).
Proof.
  intros P h. split.
  - exists []. simpl. now rewrite app_nil_r.
  - simpl. intros e' E. now injection E as <-.
Qed.

Lemma tame_bind {A B : Type} (m : M A) (k : A -> M B) :
  tame m -> (forall a, tame (k a)) -> tame (bind m k).
Proof.
  intros Tm Tk h. destruct (Tm h) as [[added Ea] Pa]. unfold bind.
  destruct (m h) as [[a | e] h1]; simpl in Ea, Pa.
  - destruct (Tk a h1) as [[added' Ea'] Pa']. split; [| exact Pa'].
    exists (added ++ added'). rewrite Ea', Ea. now rewrite app_assoc.
  - split; [now exists added |].
    simpl. intros e' E. injection E as <-. now apply Pa.
Qed.

Lemma tame_np_load x : tame (np_load x).
Proof.
  intros h. unfold np_load. destruct (nth_error h x); split; simpl.
  - exists []. now rewrite app_nil_r.
  - discriminate.
  - exists []. now rewrite app_nil_r.
  - intros e E. injection E as <-. unfold python_exn. auto.
Qed.

Lemma tame_np_new xs : tame (np_new xs).
Proof.
  intros h. split; simpl; [now exists [xs] | discriminate].
Qed.

Lemma value_error : python_exn ValueError.
Proof. now left. Qed.

Lemma zero_division_error : python_exn ZeroDivisionError.
Proof. right. now left. Qed.

Lemma overflow_error : python_exn OverflowError.
Proof. unfold python_exn. auto. Qed.

Lemma linalg_error : python_exn LinAlgError.
Proof. unfold python_exn. auto 6. Qed.

Create HintDb tame.

#[local] Hint Resolve tame_ret tame_np_load tame_np_new value_error
  zero_division_error overflow_error linalg_error : tame.
#[local] Hint Extern 1 (tame (raise _)) => apply tame_raise : tame.
#[local] Hint Extern 2 (tame (bind _ _)) => apply tame_bind; [| intro] : tame.

Lemma tame_py_truediv x y : tame (py_truediv x y).
Proof. unfold py_truediv. destruct (Reqb y 0); auto with tame. Qed.

Lemma tame_float_pow10 x : tame (float_pow10 x).
Proof.
  unfold float_pow10. destruct (Rltb float_max (py_pow10 x)); auto with tame.
Qed.

Lemma tame_np_mul_scalar x k : tame (np_mul_scalar x k).
Proof. unfold np_mul_scalar. auto with tame. Qed.

Lemma tame_np_div_scalar x k : tame (np_div_scalar x k).
Proof. unfold np_div_scalar. auto with tame. Qed.

Lemma tame_np_abs x : tame (np_abs x).
Proof. unfold np_abs. auto with tame. Qed.

Lemma tame_broadcast_add xs ys : tame (broadcast_add xs ys).
Proof.
  unfold broadcast_add. destruct (length xs =? length ys)%nat;
    [auto with tame |].
  destruct xs as [| x [| x' xs]]; destruct ys as [| y [| y' ys]];
    auto with tame.
Qed.

#[local] Hint Resolve tame_py_truediv tame_float_pow10 tame_np_mul_scalar
  tame_np_div_scalar tame_np_abs tame_broadcast_add : tame.

Lemma tame_np_add x y : tame (np_add x y).
Proof. unfold np_add. auto 6 with tame. Qed.

Lemma tame_np_max x : tame (np_max x).
Proof.
  unfold np_max. apply tame_bind; [auto with tame |].
  intros [| v vs]; auto with tame.
Qed.

Lemma tame_butter N Wn bt : tame (butter N Wn bt).
Proof.
  intros h. destruct (butter_cases N Wn bt h) as [E | E]; rewrite E.
  - apply (tame_ret (butter_design N Wn bt)).
  - apply (@tame_raise taps ValueError value_error).
Qed.

Lemma tame_filtfilt b a x : tame (filtfilt b a x).
Proof.
  unfold filtfilt. apply tame_bind; [auto with tame |]. intros xs.
  destruct (length xs <=? 3 * Nat.max (length a) (length b))%nat;
    [auto with tame |].
  destruct (lfilter_zi_solvable b a); auto with tame.
Qed.

#[local] Hint Resolve tame_np_add tame_np_max tame_butter tame_filtfilt : tame.

Lemma tame_design_filters sr : tame (design_filters sr).
Proof. unfold design_filters. auto 12 with tame. Qed.

Lemma tame_filter_band t audio gain : tame (filter_band t audio gain).
Proof.
  destruct t as [b a]. unfold filter_band, gain_stage. auto with tame.
Qed.

#[local] Hint Resolve tame_design_filters tame_filter_band : tame.

Lemma tame_mix_bands audio sr gl gm gh : tame (mix_bands audio sr gl gm gh).
Proof.
  unfold mix_bands. apply tame_bind; [auto with tame |].
  intros [[tl tm] th]. auto 10 with tame.
Qed.

Lemma tame_normalize p : tame (normalize p).
Proof.
  unfold normalize. apply tame_bind; [auto with tame |]. intros m.
  apply tame_bind; [auto with tame |]. intros v.
  destruct (Rltb 1 v); auto with tame.
Qed.

Lemma tame_apply_eq audio sr gl gm gh : tame (apply_eq audio sr gl gm gh).
Proof.
  intros h. rewrite apply_eq_stages. revert h.
  apply tame_bind; [apply tame_mix_bands | intro; apply tame_normalize].
Qed.

(** ** Algebra of the buffers *)

Lemma scaled_scaled k k' xs : scaled k' (scaled k xs) = scaled (k * k') xs.
Proof.
  unfold scaled. rewrite map_map. apply map_ext. intros v. ring.
Qed.

Lemma scaled_one xs : scaled 1 xs = xs.
Proof.
  unfold scaled. rewrite <- (map_id xs) at 2. apply map_ext. intros v. ring.
Qed.

Lemma scaled_zip_add k xs ys :
  scaled k (zip_add xs ys) = zip_add (scaled k xs) (scaled k ys).
Proof.
  revert ys. induction xs as [| x xs IH]; intros [| y ys]; simpl;
    try reflexivity.
  rewrite IH. f_equal. ring.
Qed.






Lemma scaled_repeat_zero k n : scaled k (repeat 0 n) = repeat 0 n.
Proof.
  unfold scaled. induction n as [| n IH]; simpl; [reflexivity |].
  rewrite IH. f_equal. ring.
Qed.

Lemma zip_add_repeat_zero n : zip_add (repeat 0 n) (repeat 0 n) = repeat 0 n.
Proof.
  induction n as [| n IH]; simpl; [reflexivity |].
  rewrite IH. f_equal. ring.
Qed.

Lemma peak_repeat_zero n : peak (repeat 0 n) = 0.
Proof.
  assert (Hle : peak (repeat 0 n) <= 0).
  { unfold peak. destruct n as [| n]; simpl; [lra |].
    destruct (fold_max_attained (map Rabs (repeat 0 n)) (Rabs 0)) as [E | I].
    - rewrite E, Rabs_R0. lra.
    - apply in_map_iff in I. destruct I as (v & Ev & Iv).
      apply repeat_spec in Iv. subst v. rewrite <- Ev, Rabs_R0. lra. }
  pose proof (peak_nonneg (repeat 0 n)). lra.
Qed.

(** The peak is at most [c] when every magnitude is. *)
Lemma peak_le ys c :
  0 <= c -> (forall y, In y ys -> Rabs y <= c) -> peak ys <= c.
Proof.
  intros Hc All. unfold peak. destruct ys as [| y ys]; simpl; [assumption |].
  destruct (fold_max_attained (map Rabs ys) (Rabs y)) as [E | I].
  - rewrite E. apply All. now left.
  - apply in_map_iff in I. destruct I as (v & Ev & Iv).
    rewrite <- Ev. apply All. now right.
Qed.

Lemma fold_max_scaled k vs v :
  0 <= k ->
  fold_left Rmax (map (fun x => x * k) vs) (v * k) = fold_left Rmax vs v * k.
Proof.
  intros Hk. revert v. induction vs as [| w vs IH]; intros v; simpl;
    [reflexivity |].
  rewrite <- IH. f_equal.
  rewrite (Rmult_comm v k), (Rmult_comm w k), (Rmult_comm (Rmax v w) k).
  now apply RmaxRmult.
Qed.

(** A gain scales the peak. *)
Lemma peak_scaled k ys : 0 <= k -> peak (scaled k ys) = peak ys * k.
Proof.
  intros Hk. unfold peak, scaled. destruct ys as [| y ys]; simpl; [ring |].
  rewrite map_map.
  rewrite (map_ext (fun x => Rabs (x * k)) (fun x => Rabs x * k)).
  2:{ intros x. rewrite Rabs_mult, (Rabs_pos_eq k); auto. }
  rewrite Rabs_mult, (Rabs_pos_eq k) by assumption.
  rewrite <- (map_map Rabs (fun x => x * k)).
  now apply fold_max_scaled.
Qed.

(** [10 ** ((g + c) / 20) = 10 ** (g / 20) * 10 ** (c / 20)]. *)
Lemma py_pow10_offset g c :
  py_pow10 ((g + c) / 20) = py_pow10 (g / 20) * py_pow10 (c / 20).
Proof.
  unfold py_pow10. rewrite <- Rpower_plus. f_equal. lra.
Qed.

Lemma py_pow10_0dB : py_pow10 (0 / 20) = 1.
Proof.
  unfold py_pow10. replace (0 / 20) with 0 by lra. apply Rpower_O. lra.
Qed.

Lemma no_overflow_0dB : no_overflow 0.
Proof. apply no_overflow_below. lra. Qed.

(** ** The normalized samples *)

Lemma length_normalized_samples ys :
  length (normalized_samples ys) = length ys.
Proof.
  unfold normalized_samples. destruct (Rltb 1 (peak ys)); [| reflexivity].
  apply length_map.
Qed.

Lemma normalized_samples_bound ys y :
  In y (normalized_samples ys) -> Rabs y <= 1.
Proof.
  unfold normalized_samples, Rltb.
  destruct (Rlt_dec 1 (peak ys)) as [Big | Small]; intros I.
  - apply in_map_iff in I. destruct I as (v & <- & Iv).
    pose proof (peak_ge _ _ Iv) as Hv.
    unfold Rdiv. rewrite Rabs_mult, Rabs_inv, (Rabs_pos_eq (peak ys)) by lra.
    apply Rmult_le_reg_r with (peak ys); [lra |].
    rewrite Rmult_assoc, Rinv_l by lra. lra.
  - apply Rle_trans with (peak ys); [now apply peak_ge | lra].
Qed.

(** * The claims *)

(** C1.  Length preservation: whenever [apply_eq] returns, the
    buffer it returns has exactly as many samples as the input
    buffer. *)
Theorem apply_eq_preserves_length h audio xs sr gl gm gh out h' :
  nth_error h audio = Some xs ->
  apply_eq audio sr gl gm gh h = (Ok out, h') ->
  exists ys, nth_error h' out = Some ys /\ length ys = length xs.
Proof.
  intros E Run. destruct (apply_eq_inv_ok E Run) as (Hsr & L & Z & F).
  destruct (apply_eq_ok gl gm gh Hsr E L Z F) as (out' & added & Run' & Res).
  rewrite Run in Run'. injection Run' as -> ->.
  eexists. split; [exact Res |].
  rewrite length_normalized_samples. now apply length_mixed_samples.
Qed.



(** C4.  At a sample rate of 4000 Hz the Nyquist frequency is 2000
    Hz.  The low-pass cutoff and the upper band edge are clamped
    below it by [min(., nyquist - 1)]; the high-pass cutoff
    [max(4000, 1) / nyquist] is not, it is 2, and [butter] refuses
    it: the call raises [ValueError] for every buffer and all
    gains. *)
Theorem apply_eq_rate_4000_raises h audio gl gm gh :
  let nyquist := IZR 4000 / 2 in
  Rmin 250 (nyquist - 1) / nyquist = 1 / 8 /\
  Rmin 4000 (nyquist - 1) / nyquist = 1999 / 2000 /\
  Rmax 4000 1 / nyquist = 2 /\
  apply_eq audio 4000 gl gm gh h = (Raise ValueError, h).
Proof.
  intros nyquist. unfold nyquist. repeat split.
  - rewrite Rmin_left by lra. lra.
  - rewrite Rmin_right by lra. lra.
  - rewrite Rmax_left by lra. lra.
  - apply apply_eq_refused_rate; lia.
Qed.

(** C5 (as amended).  A buffer of at most 27 samples, the pad length
    [filtfilt] takes for the band-pass filter (15 for the other two),
    makes [apply_eq] raise [ValueError] at any non-zero sample rate;
    nothing is returned, and the store is only extended.  A buffer
    of 16 to 27 samples passes the length check of the low-pass
    filter, and the [ValueError] is that of the band-pass filter if
    the low band has been computed: its steady state found, and the
    low gain one that has a factor. *)
Theorem apply_eq_short_buffer_raises h audio xs sr gl gm gh :
  nth_error h audio = Some xs -> (length xs <= 27)%nat -> sr <> 0%Z ->
  ((15 < length xs)%nat ->
   zi_solvable (low_design sr) = true /\ no_overflow gl) ->
  exists added,
    apply_eq audio sr gl gm gh h = (Raise ValueError, h ++ added).
Proof.
  intros E Short NZ Low. rewrite apply_eq_stages.
  destruct (Z_le_gt_dec sr 8000) as [Slow | High].
  - exists []. rewrite app_nil_r, <- apply_eq_stages.
    now apply apply_eq_refused_rate.
  - assert (Hsr : (8000 < sr)%Z) by lia.
    destruct (mix_bands_short gl gm gh Hsr E Short Low) as (added & Bad).
    exists added. now rewrite (bind_raise _ Bad).
Qed.

(** C6 (as amended).  On a zero-length buffer the normalization step
    raises [ValueError], the maximum of no samples being undefined;
    and [apply_eq] never brings a zero-length buffer to that step:
    given one, the call raises before it has mixed anything. *)
Theorem normalize_zero_length_raises h x sr gl gm gh :
  nth_error h x = Some [] ->
  normalize x h = (Raise ValueError, h ++ [[]]) /\
  exists e,
    mix_bands x sr gl gm gh h = (Raise e, h) /\
    apply_eq x sr gl gm gh h = (Raise e, h) /\
    (e = ValueError \/ e = ZeroDivisionError).
Proof.
  intros E. split; [now apply normalize_empty |]. rewrite apply_eq_stages.
  destruct (Z.eq_dec sr 0) as [-> | NZ].
  { exists ZeroDivisionError. unfold mix_bands.
    rewrite (bind_raise _ (bind_raise _ (design_filters_zero h))).
    rewrite (bind_raise _ (design_filters_zero h)). auto. }
  exists ValueError.
  destruct (Z_le_gt_dec sr 8000) as [Low | High].
  { unfold mix_bands.
    rewrite (bind_raise _ (bind_raise _ (design_filters_refused h NZ Low))).
    rewrite (bind_raise _ (design_filters_refused h NZ Low)). auto. }
  assert (Hsr : (8000 < sr)%Z) by lia.
  assert (S0 : (length (@nil R) <= padlen (low_design sr))%nat)
    by (simpl; lia).
  rewrite (bind_raise _ (mix_bands_too_short_for_low gl gm gh Hsr E S0)).
  rewrite (mix_bands_too_short_for_low gl gm gh Hsr E S0). auto.
Qed.

Lemma mixed_samples_silence n sr gl gm gh :
  long_enough sr n -> mixed_samples (repeat 0 n) sr gl gm gh = repeat 0 n.
Proof.
  intros (Ll & Lm & Lh). unfold mixed_samples, band_samples, filtered_samples.
  unfold padlen in Ll, Lm, Lh.
  rewrite !filtfilt_zero by assumption.
  now rewrite !scaled_repeat_zero, !zip_add_repeat_zero.
Qed.

Lemma normalized_samples_silence n :
  normalized_samples (repeat 0 n) = repeat 0 n.
Proof.
  unfold normalized_samples. rewrite peak_repeat_zero.
  now rewrite Rltb_false by lra.
Qed.

(** C7 (as amended).  Above 8000 Hz, with the steady states of the
    three filters found, an all-zero buffer of more than 27 samples
    gives an all-zero buffer of the same length, whatever the gains
    among those that have a factor. *)
Theorem apply_eq_silence h audio n sr gl gm gh :
  (8000 < sr)%Z -> (27 < n)%nat ->
  filters_start sr -> gains_fit gl gm gh ->
  nth_error h audio = Some (repeat 0 n) ->
  exists out h',
    apply_eq audio sr gl gm gh h = (Ok out, h') /\
    nth_error h' out = Some (repeat 0 n).
Proof.
  intros Hsr Long Z F E.
  assert (L : long_enough sr (length (repeat 0 n)))
    by (rewrite repeat_length; now apply long_enough_27).
  destruct (apply_eq_ok gl gm gh Hsr E L Z F) as (out & added & Run & Res).
  exists out, (h ++ added). split; [exact Run |].
  rewrite repeat_length in L.
  now rewrite mixed_samples_silence, normalized_samples_silence in Res.
Qed.

(** C8.  The gain stage at 0 dB: [10 ** (0 / 20)] is 1, and the
    stage returns a new buffer with the samples of the band, every
    one unchanged; it cannot raise and leaves the store as it was
    but for the new buffer. *)
Theorem gain_stage_0dB_identity h filtered xs :
  nth_error h filtered = Some xs ->
  py_pow10 (0 / 20) = 1 /\
  gain_stage filtered 0 h = (Ok (length h), h ++ [xs]).
Proof.
  intros E. split; [apply py_pow10_0dB |]. unfold gain_stage.
  rewrite (bind_ok _ (float_pow10_ok _ no_overflow_0dB)).
  rewrite (np_mul_scalar_ok _ E), py_pow10_0dB. now rewrite scaled_one.
Qed.

(** C9.  [apply_eq] never writes to the caller's buffer: whether the
    call returns or raises, the input array, and every other array
    of the caller's store, holds the values it held before. *)
Theorem apply_eq_keeps_input h audio xs sr gl gm gh :
  nth_error h audio = Some xs ->
  nth_error (snd (apply_eq audio sr gl gm gh h)) audio = Some xs /\
  (forall x ys,
     nth_error h x = Some ys ->
     nth_error (snd (apply_eq audio sr gl gm gh h)) x = Some ys).
Proof.
  intros E.
  destruct (tame_apply_eq audio sr gl gm gh h) as [[added ->] _].
  split; [now apply lookup_kept |]. intros x ys Ex. now apply lookup_kept.
Qed.

Lemma band_samples_offset t xs g c :
  band_samples t xs (g + c) =
  scaled (py_pow10 (c / 20)) (band_samples t xs g).
Proof.
  unfold band_samples. now rewrite scaled_scaled, py_pow10_offset.
Qed.

(** Line 159 after a uniform offset of the three gains. *)
Lemma mixed_samples_offset xs sr gl gm gh c :
  mixed_samples xs sr (gl + c) (gm + c) (gh + c) =
  scaled (py_pow10 (c / 20)) (mixed_samples xs sr gl gm gh).
Proof.
  unfold mixed_samples. now rewrite !band_samples_offset, !scaled_zip_add.
Qed.

(** A positive factor is undone by the division by the peak. *)
Lemma normalized_samples_scaled k ys :
  0 < k -> 1 < peak ys -> 1 < peak (scaled k ys) ->
  normalized_samples (scaled k ys) = normalized_samples ys.
Proof.
  intros Hk P P'. unfold normalized_samples.
  rewrite !Rltb_true by assumption.
  rewrite peak_scaled by lra. unfold scaled. rewrite map_map.
  apply map_ext. intros v. field. lra.
Qed.

(** C10 (as amended).  In the arithmetic of the real numbers, and
    when the run with the gains and the run with the gains plus [c]
    dB both come to the mixed buffer, the second mixed buffer is the
    first with every sample multiplied by [10 ** (c / 20)]; and when
    the mixed peak is above 1 in both, the two calls return the same
    samples. *)
Theorem apply_eq_uniform_offset
    h audio xs sr gl gm gh c p hm mixed p' hm' mixed' :
  nth_error h audio = Some xs ->
  mix_bands audio sr gl gm gh h = (Ok p, hm) ->
  nth_error hm p = Some mixed ->
  mix_bands audio sr (gl + c) (gm + c) (gh + c) h = (Ok p', hm') ->
  nth_error hm' p' = Some mixed' ->
  mixed' = map (fun v => v * Rpower 10 (c / 20)) mixed /\
  (1 < peak mixed -> 1 < peak mixed' ->
   exists out h1 out' h2 ys,
     apply_eq audio sr gl gm gh h = (Ok out, h1) /\
     apply_eq audio sr (gl + c) (gm + c) (gh + c) h = (Ok out', h2) /\
     nth_error h1 out = Some ys /\
     nth_error h2 out' = Some ys).
Proof.
  intros E Mix Hp Mix' Hp'.
  destruct (mix_bands_inv_ok E Mix) as (Hsr & L & Z & F).
  destruct (mix_bands_inv_ok E Mix') as (_ & _ & _ & F').
  pose proof (mix_bands_ok gl gm gh Hsr E L Z F) as R1.
  pose proof (mix_bands_ok (gl + c) (gm + c) (gh + c) Hsr E L Z F') as R2.
  rewrite Mix in R1. injection R1 as -> ->.
  rewrite Mix' in R2. injection R2 as -> ->.
  rewrite lookup_offset in Hp, Hp'. simpl in Hp, Hp'.
  injection Hp as <-. injection Hp' as <-.
  rewrite mixed_samples_offset. split; [reflexivity |].
  intros P P'.
  destruct (apply_eq_ok gl gm gh Hsr E L Z F) as (out & added & Run & Res).
  destruct (apply_eq_ok (gl + c) (gm + c) (gh + c) Hsr E L Z F')
    as (out' & added' & Run' & Res').
  exists out, (h ++ added), out', (h ++ added').
  exists (normalized_samples (mixed_samples xs sr gl gm gh)).
  repeat split; [exact Run | exact Run' | exact Res |].
  rewrite mixed_samples_offset in Res'.
  rewrite normalized_samples_scaled in Res';
    [exact Res' | apply py_pow10_pos | exact P | exact P'].
Qed.

(** * Further properties of apply_eq *)

(** What [mix_bands] raises above 8000 Hz, and why. *)
Lemma mix_bands_raises {audio xs sr gl gm gh h e h1} :
  (8000 < sr)%Z -> nth_error h audio = Some xs ->
  mix_bands audio sr gl gm gh h = (Raise e, h1) ->
  (e = ValueError /\ (length xs <= 27)%nat) \/
  (e = LinAlgError /\ ~ filters_start sr) \/
  (e = OverflowError /\ ~ gains_fit gl gm gh).
Proof.
  intros Hsr E Mix.
  destruct (le_lt_dec (length xs) 27) as [Short | Long].
  { destruct (le_lt_dec (length xs) 15) as [Sl | Ll].
    - left. split; [| assumption].
      rewrite <- (padlen_low sr) in Sl.
      rewrite (mix_bands_too_short_for_low gl gm gh Hsr E Sl) in Mix.
      now injection Mix as <- _.
    - rewrite <- (padlen_low sr) in Ll. unfold mix_bands in Mix.
      rewrite (bind_ok _ (design_filters_ok _ Hsr)), designs_eta in Mix.
      destruct (zi_solvable (low_design sr)) eqn:Zl.
      2:{ rewrite (bind_raise _ (filter_band_unsolvable _ _ E Ll Zl)) in Mix.
          injection Mix as <- _. right. left. split; [reflexivity |].
          intros (Zl' & _). congruence. }
      destruct (Rle_dec (py_pow10 (gl / 20)) float_max) as [Fl | Fl].
      2:{ rewrite (bind_raise _ (filter_band_overflow _ _ E Ll Zl Fl)) in Mix.
          injection Mix as <- _. right. right. split; [reflexivity |].
          now intros (Fl' & _). }
      rewrite (bind_ok _ (filter_band_ok _ _ E Ll Zl Fl)) in Mix.
      rewrite <- (padlen_mid sr) in Short.
      rewrite (bind_raise _
                 (filter_band_short _ _ (lookup_kept _ E) Short)) in Mix.
      injection Mix as <- _. left. split; [reflexivity |].
      now rewrite padlen_mid in Short. }
  apply (long_enough_27 sr) in Long. pose proof Long as (Ll & Lm & Lh).
  unfold mix_bands in Mix.
  rewrite (bind_ok _ (design_filters_ok _ Hsr)), designs_eta in Mix.
  destruct (zi_solvable (low_design sr)) eqn:Zl.
  2:{ rewrite (bind_raise _ (filter_band_unsolvable _ _ E Ll Zl)) in Mix.
      injection Mix as <- _. right. left. split; [reflexivity |].
      intros (Zl' & _). congruence. }
  destruct (Rle_dec (py_pow10 (gl / 20)) float_max) as [Fl | Fl].
  2:{ rewrite (bind_raise _ (filter_band_overflow _ _ E Ll Zl Fl)) in Mix.
      injection Mix as <- _. right. right. split; [reflexivity |].
      now intros (Fl' & _). }
  rewrite (bind_ok _ (filter_band_ok _ _ E Ll Zl Fl)) in Mix.
  destruct (zi_solvable (mid_design sr)) eqn:Zm.
  2:{ rewrite (bind_raise _
                 (filter_band_unsolvable _ _ (lookup_kept _ E) Lm Zm)) in Mix.
      injection Mix as <- _. right. left. split; [reflexivity |].
      intros (_ & Zm' & _). congruence. }
  destruct (Rle_dec (py_pow10 (gm / 20)) float_max) as [Fm | Fm].
  2:{ rewrite (bind_raise _
                 (filter_band_overflow _ _ (lookup_kept _ E) Lm Zm Fm)) in Mix.
      injection Mix as <- _. right. right. split; [reflexivity |].
      now intros (_ & Fm' & _). }
  rewrite (bind_ok _ (filter_band_ok _ _ (lookup_kept _ E) Lm Zm Fm)) in Mix.
  destruct (zi_solvable (high_design sr)) eqn:Zh.
  2:{ rewrite (bind_raise _
                 (filter_band_unsolvable _ _
                    (lookup_kept _ (lookup_kept _ E)) Lh Zh)) in Mix.
      injection Mix as <- _. right. left. split; [reflexivity |].
      intros (_ & _ & Zh'). congruence. }
  destruct (Rle_dec (py_pow10 (gh / 20)) float_max) as [Fh | Fh].
  2:{ rewrite (bind_raise _
                 (filter_band_overflow _ _
                    (lookup_kept _ (lookup_kept _ E)) Lh Zh Fh)) in Mix.
      injection Mix as <- _. right. right. split; [reflexivity |].
      now intros (_ & _ & Fh'). }
  exfalso.
  assert (Z : filters_start sr) by (repeat split; assumption).
  assert (F : gains_fit gl gm gh) by (repeat split; assumption).
  unfold mix_bands in Mix.
  pose proof (mix_bands_ok gl gm gh Hsr E Long Z F) as Good.
  unfold mix_bands in Good.
  rewrite (bind_ok _ (design_filters_ok _ Hsr)), designs_eta in Good.
  rewrite (bind_ok _ (filter_band_ok _ _ E Ll Zl Fl)) in Good.
  rewrite (bind_ok _ (filter_band_ok _ _ (lookup_kept _ E) Lm Zm Fm)) in Good.
  rewrite Good in Mix. discriminate.
Qed.


(** X2.  The exceptions of [apply_eq], given the caller's buffer: a
    sample rate of 0 divides by zero; up to 8000 Hz, or with at most
    27 samples, the failure is a [ValueError]; and there are two
    more, [LinAlgError] when the steady state of one of the filters
    is not found and [OverflowError] when one of the gains has no
    factor. *)
Theorem apply_eq_raises_only h audio xs sr gl gm gh e :
  nth_error h audio = Some xs ->
  fst (apply_eq audio sr gl gm gh h) = Raise e ->
  (sr = 0%Z /\ e = ZeroDivisionError) \/
  (sr <> 0%Z /\ e = ValueError /\
   ((sr <= 8000)%Z \/ (length xs <= 27)%nat)) \/
  ((8000 < sr)%Z /\ e = LinAlgError /\ ~ filters_start sr) \/
  ((8000 < sr)%Z /\ e = OverflowError /\ ~ gains_fit gl gm gh).
Proof.
  intros E Bad.
  destruct (Z.eq_dec sr 0) as [-> | NZ].
  { left. split; [reflexivity |].
    rewrite apply_eq_stages in Bad. unfold mix_bands in Bad.
    rewrite (bind_raise _ (bind_raise _ (design_filters_zero h))) in Bad.
    simpl in Bad. now injection Bad as <-. }
  right.
  destruct (Z_le_gt_dec sr 8000) as [Low | High].
  { rewrite (apply_eq_refused_rate audio sr gl gm gh h NZ Low) in Bad.
    simpl in Bad. injection Bad as <-. left. auto. }
  assert (Hsr : (8000 < sr)%Z) by lia.
  rewrite apply_eq_stages in Bad.
  destruct (mix_bands audio sr gl gm gh h) as [[p | e'] h1] eqn:Mix.
  - exfalso. destruct (mix_bands_inv_ok E Mix) as (_ & L & Z & F).
    destruct (apply_eq_ok gl gm gh Hsr E L Z F) as (out & added & Run & _).
    rewrite apply_eq_stages, (bind_ok _ Mix) in Run.
    rewrite (bind_ok _ Mix), Run in Bad. discriminate.
  - rewrite (bind_raise _ Mix) in Bad. simpl in Bad. injection Bad as ->.
    destruct (mix_bands_raises Hsr E Mix) as [[-> S] | [[-> Z] | [-> F]]];
      auto 6.
Qed.

(** X3.  The buffer [apply_eq] returns is a new one: its location
    was free in the caller's store, so it is not the input buffer,
    even when no sample had to be divided. *)
Theorem apply_eq_result_is_new h audio xs sr gl gm gh out h' :
  nth_error h audio = Some xs ->
  apply_eq audio sr gl gm gh h = (Ok out, h') ->
  nth_error h out = None /\ out <> audio.
Proof.
  intros E Run.
  pose proof (apply_eq_returns_fresh _ _ _ _ _ _ _ _ _ E Run) as Fresh.
  assert (None' : nth_error h out = None) by now apply nth_error_None.
  split; [assumption |]. intros ->. congruence.
Qed.



(** X5.  Normalizing twice changes nothing: run on the buffer it has
    returned, the normalization step returns that same buffer with
    the same samples. *)
Theorem normalize_twice h p ys q h1 :
  nth_error h p = Some ys -> ys <> [] ->
  normalize p h = (Ok q, h1) ->
  exists h2,
    normalize q h1 = (Ok q, h2) /\ nth_error h2 q = nth_error h1 q.
Proof.
  intros E Hne Run.
  destruct (normalize_result E Hne) as (q' & added & Run' & Res).
  rewrite Run in Run'. injection Run' as -> ->.
  assert (Hne' : normalized_samples ys <> []).
  { intros Z. apply (f_equal (@length R)) in Z.
    rewrite length_normalized_samples in Z.
    destruct ys; [congruence | discriminate]. }
  pose proof (normalize_ok Res Hne') as Again.
  rewrite Rltb_false in Again.
  2:{ apply peak_le; [lra |]. apply normalized_samples_bound. }
  eexists. split; [exact Again |].
  transitivity (Some (normalized_samples ys));
    [now apply lookup_kept | now symmetry].
Qed.

(** X6.  From 8002 Hz up the [min] and [max] of lines 149-151 change
    nothing: the three designs are asked for the cutoffs 250 Hz and
    4000 Hz themselves, divided by the Nyquist frequency. *)
Theorem design_filters_plain_cutoffs sr h :
  (8002 <= sr)%Z ->
  design_filters sr h =
    (Ok (butter_design 4 (Wn1 (250 / (IZR sr / 2))) low,
         butter_design 4
           (Wn2 (250 / (IZR sr / 2)) (4000 / (IZR sr / 2))) band,
         butter_design 4 (Wn1 (4000 / (IZR sr / 2))) high),
     h).
Proof.
  intros L. assert (Hsr : (8000 < sr)%Z) by lia.
  rewrite (design_filters_ok h Hsr). unfold designs.
  apply IZR_le in L.
  rewrite (Rmin_left 250), (Rmin_left 4000), !Rmax_left by lra.
  reflexivity.
Qed.

(** [10 ** (3 / 5)] is at most 4: its fifth power is 1000, and that
    of 4 is 1024. *)
Lemma py_pow10_three_fifths : py_pow10 (3 / 5) <= 4.
Proof.
  destruct (Rle_lt_dec (py_pow10 (3 / 5)) 4) as [L | G]; [exact L |].
  exfalso.
  assert (P : Rpower 4 5 < Rpower (py_pow10 (3 / 5)) 5)
    by (apply Rlt_Rpower_l; lra).
  unfold py_pow10 in P. rewrite Rpower_mult in P.
  replace (3 / 5 * 5) with (INR 3) in P by (simpl; lra).
  replace 5 with (INR 5) in P by (simpl; lra).
  rewrite !Rpower_pow in P by lra. simpl in P. lra.
Qed.

(** X7.  For a gain in the range of the sliders, from -12 to 12 dB,
    the gain stage multiplies the band by a factor between 1/4 and
    4: no setting of a slider silences or inverts a band, or makes
    it more than four times as loud. *)
Theorem gain_stage_slider_factor h filtered xs gain :
  nth_error h filtered = Some xs -> -12 <= gain <= 12 ->
  exists k,
    1 / 4 <= k <= 4 /\
    gain_stage filtered gain h
      = (Ok (length h), h ++ [map (fun v => v * k) xs]).
Proof.
  intros E [Lo Hi]. exists (py_pow10 (gain / 20)). split.
  - split.
    + apply Rle_trans with (py_pow10 (- (3 / 5)));
        [| apply py_pow10_le; lra].
      unfold py_pow10. rewrite Rpower_Ropp.
      pose proof py_pow10_three_fifths as Up.
      pose proof (py_pow10_pos (3 / 5)) as Pos. unfold py_pow10 in Up, Pos.
      unfold Rdiv. rewrite Rmult_1_l.
      apply Rinv_le_contravar; assumption.
    + apply Rle_trans with (py_pow10 (3 / 5));
        [apply py_pow10_le; lra | apply py_pow10_three_fifths].
  - unfold gain_stage.
    assert (F : no_overflow gain) by (apply no_overflow_below; lra).
    rewrite (bind_ok _ (float_pow10_ok _ F)).
    now rewrite (np_mul_scalar_ok _ E).
Qed.

(** X8.  A call leaves nothing behind that a later call can see:
    made again on the store the first call has left, the same call
    returns another new buffer with the same samples. *)
Theorem apply_eq_again h audio xs sr gl gm gh out h' :
  nth_error h audio = Some xs ->
  apply_eq audio sr gl gm gh h = (Ok out, h') ->
  exists out2 h'',
    apply_eq audio sr gl gm gh h' = (Ok out2, h'') /\
    nth_error h'' out2 = nth_error h' out /\
    out2 <> out.
Proof.
  intros E Run. destruct (apply_eq_inv_ok E Run) as (Hsr & L & Zi & F).
  destruct (apply_eq_ok gl gm gh Hsr E L Zi F) as (out' & added & Run' & Res).
  rewrite Run in Run'. injection Run' as -> ->.
  destruct (apply_eq_ok gl gm gh Hsr (lookup_kept added E) L Zi F)
    as (out2 & added2 & Run2 & Res2).
  exists out2, ((h ++ added) ++ added2). split; [exact Run2 |]. split.
  - transitivity (Some (normalized_samples (mixed_samples xs sr gl gm gh)));
      [assumption | now symmetry].
  - pose proof (apply_eq_returns_fresh _ _ _ _ _ _ _ _ _
                  (lookup_kept added E) Run2) as Fresh.
    assert (Old : (out' < length (h ++ added))%nat).
    { apply nth_error_Some. intros Z.
      pose proof (eq_trans (eq_sym Z) Res) as Abs. discriminate Abs. }
    intros ->. exact (Nat.lt_irrefl _ (Nat.lt_le_trans _ _ _ Old Fresh)).
Qed.


(** * The file names of the Flask layer *)

Lemma py_split_stem s :
  exists stem rest,
    py_split "." s = stem :: rest /\
    without "." stem = true /\
    (s = stem \/ exists tail, s = (stem ++ "." ++ tail)%string).
Proof.
  induction s as [| c s (stem & rest & E & Dotless & Shape)]; simpl.
  - exists EmptyString, []. auto.
  - destruct (Ascii.eqb_spec c ".") as [-> | Other].
    + exists EmptyString, (py_split "." s). repeat split.
      right. now exists s.
    + rewrite E. exists (String c stem), rest. repeat split.
      * simpl. rewrite Dotless.
        destruct (Ascii.eqb_spec c "."); [contradiction | reflexivity].
      * destruct Shape as [-> | (tail & ->)]; [now left |].
        right. now exists tail.
Qed.

Lemma py_split_dotless stem :
  without "." stem = true -> py_split "." stem = [stem].
Proof.
  induction stem as [| c s IH]; simpl; [reflexivity |].
  destruct (Ascii.eqb c "."); simpl; [discriminate |].
  intros D. now rewrite (IH D).
Qed.

Lemma py_split_at_first_dot stem tail :
  without "." stem = true ->
  py_split "." (stem ++ "." ++ tail) = stem :: py_split "." tail.
Proof.
  change ("." ++ tail)%string with (String "." tail).
  induction stem as [| c s IH]; simpl; [reflexivity |].
  destruct (Ascii.eqb c "."); simpl; [discriminate |].
  intros D. now rewrite (IH D).
Qed.

(** X9.  The name of the processed file is [eq_], the part of the
    request's file name before its first dot, and [.wav]: the split
    always has a first piece, that piece has no dot, and the file
    name is that piece alone or that piece, a dot and a remainder. *)
Theorem output_name_shape filename :
  exists stem,
    output_name filename = Some ("eq_" ++ stem ++ ".wav")%string /\
    without "." stem = true /\
    (filename = stem \/
     exists tail, filename = (stem ++ "." ++ tail)%string).
Proof.
  destruct (py_split_stem filename) as (stem & rest & E & Dotless & Shape).
  exists stem. unfold output_name. rewrite E. auto.
Qed.

(** X10.  File names that agree up to their first dot get the same
    processed name: whatever follows the first dot, extension or
    not, is dropped. *)
Theorem output_name_ignores_extension stem :
  without "." stem = true ->
  output_name stem = Some ("eq_" ++ stem ++ ".wav")%string /\
  forall tail,
    output_name (stem ++ "." ++ tail)
    = Some ("eq_" ++ stem ++ ".wav")%string.
Proof.
  intros D. unfold output_name. split.
  - now rewrite py_split_dotless.
  - intros tail. now rewrite py_split_at_first_dot.
Qed.

Lemma output_name_stem filename name :
  output_name filename = Some name ->
  exists stem,
    name = ("eq_" ++ stem ++ ".wav")%string /\
    py_split "." filename = stem :: tl (py_split "." filename) /\
    py_split "." name = ("eq_" ++ stem)%string :: py_split "." "wav".
Proof.
  unfold output_name. intros Out.
  destruct (py_split_stem filename) as (stem & rest & E & Dotless & _).
  rewrite E in Out. injection Out as <-. exists stem.
  split; [reflexivity |]. split; [now rewrite E |].
  apply (py_split_at_first_dot ("eq_" ++ stem) "wav"). exact Dotless.
Qed.

(** The processed name differs from the name it was made from. *)
Lemma output_name_differs filename name :
  output_name filename = Some name -> name <> filename.
Proof.
  intros Out Same.
  destruct (output_name_stem _ _ Out) as (stem & -> & E & E').
  rewrite Same, E in E'. injection E' as Stem _.
  apply (f_equal String.length) in Stem. simpl in Stem. lia.
Qed.


(** X11.  The processed name is never the name it was made from, and
    processing a processed file puts a second [eq_] in front. *)
Theorem output_name_is_another filename :
  exists stem,
    output_name filename = Some ("eq_" ++ stem ++ ".wav")%string /\
    ("eq_" ++ stem ++ ".wav")%string <> filename /\
    output_name ("eq_" ++ stem ++ ".wav")
    = Some ("eq_eq_" ++ stem ++ ".wav")%string.
Proof.
  destruct (py_split_stem filename) as (stem & rest & E & Dotless & Shape).
  assert (Out : output_name filename = Some ("eq_" ++ stem ++ ".wav")%string)
    by (unfold output_name; now rewrite E).
  exists stem. split; [exact Out |].
  split; [now apply output_name_differs |].
  assert (Again : py_split "." ("eq_" ++ stem ++ ".wav")
                  = ("eq_" ++ stem)%string :: py_split "." "wav")
    by exact (py_split_at_first_dot ("eq_" ++ stem) "wav" Dotless).
  unfold output_name. now rewrite Again.
Qed.

(** * The handlers, run *)

Lemma wbind_done {A B : Type} {m : W A} (k : A -> W B) {w a w1} :
  m w = (Done a, w1) -> wbind m k w = k a w1.
Proof. intros E. unfold wbind. now rewrite E. Qed.

Lemma wbind_thrown {A B : Type} {m : W A} (k : A -> W B) {w e w1} :
  m w = (Thrown e, w1) -> wbind m k w = (Thrown e, w1).
Proof. intros E. unfold wbind. now rewrite E. Qed.

Lemma core_ok {A : Type} {m : M A} {w a h} :
  m (store w) = (Ok a, h) ->
  core m w = (Done a, {| store := h; disk := disk w |}).
Proof. intros E. unfold core. now rewrite E. Qed.

Lemma core_raise {A : Type} {m : M A} {w e h} :
  m (store w) = (Raise e, h) ->
  core m w = (Thrown (Py e), {| store := h; disk := disk w |}).
Proof. intros E. unfold core. now rewrite E. Qed.

Lemma disk_read_newest path content d :
  disk_read path ((path, content) :: d) = Some content.
Proof. simpl. now rewrite String.eqb_refl. Qed.

(** ** Steps that leave the files alone *)

Lemma quiet_wret {A : Type} (a : A) : quiet (wret a).
Proof. now intros w. Qed.

Lemma quiet_throw {A : Type} (e : web_exn) : quiet (@throw A e).
Proof. now intros w. Qed.

Lemma quiet_wbind {A B : Type} (m : W A) (k : A -> W B) :
  quiet m -> (forall a, quiet (k a)) -> quiet (wbind m k).
Proof.
  intros Qm Qk w. specialize (Qm w). unfold wbind.
  destruct (m w) as [[a | e] w1]; simpl in Qm; [| exact Qm].
  now rewrite (Qk a w1).
Qed.

Lemma quiet_core {A : Type} (m : M A) : quiet (core m).
Proof. intros w. unfold core. now destruct (m (store w)) as [[a | e] h]. Qed.

Lemma quiet_request_json body : quiet (request_json body).
Proof. destruct body; [apply quiet_wret | apply quiet_throw]. Qed.

Lemma quiet_subscript data key : quiet (subscript data key).
Proof.
  destruct data; try apply quiet_throw. simpl.
  destruct (dict_get key fields); [apply quiet_wret | apply quiet_throw].
Qed.

Lemma quiet_os_path_join_value a v : quiet (os_path_join_value a v).
Proof. destruct v; try apply quiet_throw. apply quiet_wret. Qed.

Lemma quiet_split_value v : quiet (split_value v).
Proof. destruct v; try apply quiet_throw. apply quiet_wret. Qed.

Lemma quiet_first_item pieces : quiet (first_item pieces).
Proof. destruct pieces; [apply quiet_throw | apply quiet_wret]. Qed.

Lemma quiet_py_float v : quiet (py_float v).
Proof.
  destruct v; try apply quiet_throw; try apply quiet_wret. simpl.
  destruct (float_of_str s); [apply quiet_wret | apply quiet_throw].
Qed.

Lemma quiet_librosa_load path : quiet (librosa_load path).
Proof.
  intros w. unfold librosa_load.
  destruct (disk_read path (disk w)) as [content |]; [| reflexivity].
  now destruct (decode content) as [[samples sr] |].
Qed.

(** ** Bodies that write only when they succeed *)

Lemma writes_only_on_success_wbind {A : Type} (m : W A) (k : A -> W response) :
  quiet m -> (forall a, writes_only_on_success (k a)) ->
  writes_only_on_success (wbind m k).
Proof.
  intros Qm Sk w. specialize (Qm w). unfold wbind.
  destruct (m w) as [[a | e] w1]; simpl in Qm; [| exact Qm].
  specialize (Sk a w1).
  destruct (k a w1) as [[[n | n | e'] | e'] w2]; try exact I;
    now rewrite Sk.
Qed.

Lemma writes_only_on_success_sf_write path data sr name :
  writes_only_on_success
    (wbind (sf_write path data sr) (fun _ => wret (ProcessOk name))).
Proof.
  intros w. unfold sf_write, wbind, core.
  destruct (np_load data (store w)) as [[samples | e] h]; simpl;
    [| reflexivity].
  destruct (writable path); simpl; [exact I | reflexivity].
Qed.

(** X12.  [process] writes a file only when it answers with
    success: whenever the answer is an error, for whatever reason,
    the files are as they were. *)
Theorem process_error_writes_nothing body w e :
  fst (process body w) = ErrorJson e ->
  disk (snd (process body w)) = disk w.
Proof.
  unfold process, try_except.
  match goal with
  | |- context [match ?b w with _ => _ end] =>
      assert (Safe : writes_only_on_success b)
  end.
  { apply writes_only_on_success_wbind; [apply quiet_request_json |].
    intros data.
    apply writes_only_on_success_wbind; [apply quiet_subscript |]. intros v.
    apply writes_only_on_success_wbind;
      [apply quiet_os_path_join_value |]. intros filepath.
    apply writes_only_on_success_wbind; [apply quiet_librosa_load |].
    intros [audio sr].
    apply writes_only_on_success_wbind; [apply quiet_subscript |]. intros vl.
    apply writes_only_on_success_wbind; [apply quiet_py_float |]. intros gl.
    apply writes_only_on_success_wbind; [apply quiet_subscript |]. intros vm.
    apply writes_only_on_success_wbind; [apply quiet_py_float |]. intros gm.
    apply writes_only_on_success_wbind; [apply quiet_subscript |]. intros vh.
    apply writes_only_on_success_wbind; [apply quiet_py_float |]. intros gh.
    apply writes_only_on_success_wbind; [apply quiet_core |]. intros out.
    apply writes_only_on_success_wbind; [apply quiet_subscript |]. intros v'.
    apply writes_only_on_success_wbind; [apply quiet_split_value |].
    intros pieces.
    apply writes_only_on_success_wbind; [apply quiet_first_item |].
    intros stem. apply writes_only_on_success_sf_write. }
  specialize (Safe w).
  match goal with
  | |- context [match ?b w with _ => _ end] =>
      destruct (b w) as [[[n | n | e'] | e'] w1]
  end; simpl; intros E; try discriminate; exact Safe.
Qed.

(** ** The steps of [process], run *)

Lemma subscript_ok {fields key v} w :
  dict_get key fields = Some v ->
  subscript (JObj fields) key w = (Done v, w).
Proof. intros E. unfold subscript. now rewrite E. Qed.

Lemma subscript_missing {fields key} w :
  dict_get key fields = None ->
  subscript (JObj fields) key w = (Thrown (KeyError key), w).
Proof. intros E. unfold subscript. now rewrite E. Qed.

Lemma py_float_ok {s r} w :
  float_of_str s = Some r -> py_float (JStr s) w = (Done r, w).
Proof. intros E. unfold py_float. now rewrite E. Qed.

Lemma librosa_load_ok {path content xs sr} w :
  disk_read path (disk w) = Some content ->
  decode content = Some (xs, sr) ->
  librosa_load path w =
    (Done (length (store w), sr),
     {| store := store w ++ [xs]; disk := disk w |}).
Proof. intros E D. unfold librosa_load. now rewrite E, D. Qed.

Lemma librosa_load_undecodable {path content} w :
  disk_read path (disk w) = Some content ->
  decode content = None ->
  librosa_load path w = (Thrown (LoadError path), w).
Proof. intros E D. unfold librosa_load. now rewrite E, D. Qed.

Lemma sf_write_ok {path data ys} sr w :
  nth_error (store w) data = Some ys -> writable path = true ->
  sf_write path data sr w =
    (Done tt,
     {| store := store w; disk := (path, encode ys sr) :: disk w |}).
Proof.
  intros E Wr. unfold sf_write.
  rewrite (wbind_done _ (core_ok (np_load_ok E))). simpl. now rewrite Wr.
Qed.

Lemma sf_write_refused {path data ys} sr w :
  nth_error (store w) data = Some ys -> writable path = false ->
  sf_write path data sr w = (Thrown (WriteError path), w).
Proof.
  intros E Wr. unfold sf_write.
  rewrite (wbind_done _ (core_ok (np_load_ok E))). simpl. rewrite Wr.
  now destruct w.
Qed.

(** Runs [process] on a request of the page, with the file at hand,
    up to the call of [apply_eq]. *)
Ltac run_to_apply_eq Req File Dec :=
  let Name := fresh "Name" in
  let sl := fresh "sl" in let Kl := fresh "Kl" in let Fl := fresh "Fl" in
  let sm := fresh "sm" in let Km := fresh "Km" in let Fm := fresh "Fm" in
  let sh := fresh "sh" in let Kh := fresh "Kh" in let Fh := fresh "Fh" in
  destruct Req as (Name & (sl & Kl & Fl) & (sm & Km & Fm) & (sh & Kh & Fh));
  unfold process, try_except, request_json;
  rewrite (wbind_done _ (eq_refl : wret _ _ = (Done _, _)));
  rewrite (wbind_done _ (subscript_ok _ Name));
  unfold os_path_join_value;
  rewrite (wbind_done _ (eq_refl : wret _ _ = (Done _, _)));
  rewrite (wbind_done _ (librosa_load_ok _ File Dec));
  rewrite (wbind_done _ (subscript_ok _ Kl));
  rewrite (wbind_done _ (py_float_ok _ Fl));
  rewrite (wbind_done _ (subscript_ok _ Km));
  rewrite (wbind_done _ (py_float_ok _ Fm));
  rewrite (wbind_done _ (subscript_ok _ Kh));
  rewrite (wbind_done _ (py_float_ok _ Fh)).

(** A request of the page for a file of more than 27 samples at more
    than 8000 Hz: the answer and the world after it, with a result
    that can be written and with one that cannot. *)
Lemma process_run fields name gl gm gh content xs sr out_name w :
  slider_request fields name gl gm gh ->
  disk_read (os_path_join temp_dir name) (disk w) = Some content ->
  decode content = Some (xs, sr) ->
  (8000 < sr)%Z -> (27 < length xs)%nat -> filters_start sr ->
  output_name name = Some out_name ->
  exists added,
    process (Some (JObj fields)) w =
      if writable (os_path_join temp_dir out_name)
      then (ProcessOk out_name,
            {| store := store w ++ xs :: added;
               disk := (os_path_join temp_dir out_name,
                        encode (normalized_samples
                                  (mixed_samples xs sr gl gm gh)) sr)
                       :: disk w |})
      else (ErrorJson (WriteError (os_path_join temp_dir out_name)),
            {| store := store w ++ xs :: added; disk := disk w |}).
Proof.
  intros (Req & Rl & Rm & Rh) File Dec Hsr Long Zi Out.
  pose proof Req as (Name' & _).
  run_to_apply_eq Req File Dec.
  assert (L : long_enough sr (length xs)) by now apply long_enough_27.
  destruct (apply_eq_ok gl gm gh Hsr (lookup_new (store w) xs) L Zi
              (slider_gains_fit _ _ _ Rl Rm Rh))
    as (out & added & Run & Res).
  rewrite (wbind_done _ (core_ok (w := {| store := _; disk := _ |}) Run)).
  simpl disk.
  rewrite (wbind_done _ (subscript_ok _ Name')).
  unfold split_value.
  rewrite (wbind_done _ (eq_refl : wret _ _ = (Done _, _))).
  exists added.
  destruct (writable (os_path_join temp_dir out_name)) eqn:Wr;
    unfold output_name in Out;
    (destruct (py_split "." name) as [| stem pieces]; [discriminate |]);
    injection Out as <-; unfold first_item;
    rewrite (wbind_done _ (eq_refl : wret _ _ = (Done _, _))).
  - rewrite (wbind_done _
               (sf_write_ok sr {| store := _; disk := _ |} Res Wr)).
    unfold wret. simpl. now rewrite <- app_assoc.
  - rewrite (wbind_thrown _
               (sf_write_refused sr {| store := _; disk := _ |} Res Wr)).
    now rewrite <- app_assoc.
Qed.

(** ** Paths *)


Lemma prefix_append (a b : string) : String.prefix a (a ++ b) = true.
Proof.
  induction a as [| c a IH]; simpl; [now destruct b |].
  destruct (ascii_dec c c); [exact IH | contradiction].
Qed.

(** A relative name is appended to the directory. *)
Lemma os_path_join_relative a b :
  starts_with "/" b = false ->
  String.prefix a (os_path_join a b) = true.
Proof.
  intros Rel. unfold os_path_join. rewrite Rel.
  destruct (String.eqb a "" || ends_with "/" a); apply prefix_append.
Qed.


(** ** process *)


(** X14.  A stored file whose sample rate is 8000 Hz or less cannot
    be processed: whatever its length and the gains, the answer is
    the [ValueError] of the filter design, and nothing is written. *)
Theorem process_low_rate fields name gl gm gh content xs sr w :
  page_request fields name gl gm gh ->
  disk_read (os_path_join temp_dir name) (disk w) = Some content ->
  decode content = Some (xs, sr) ->
  sr <> 0%Z -> (sr <= 8000)%Z ->
  process (Some (JObj fields)) w =
    (ErrorJson (Py ValueError),
     {| store := store w ++ [xs]; disk := disk w |}).
Proof.
  intros Req File Dec NZ Low.
  run_to_apply_eq Req File Dec.
  now rewrite (wbind_thrown _
    (core_raise (w := {| store := _; disk := _ |})
       (apply_eq_refused_rate _ sr gl gm gh _ NZ Low))).
Qed.

(** X15.  The gains are looked up after the file has been loaded: a
    request with the file at hand and no ['low_gain'] is answered
    with the [KeyError] of that key, the file decoded and no file
    written. *)
Theorem process_missing_gain fields name content xs sr w :
  dict_get "filename" fields = Some (JStr name) ->
  disk_read (os_path_join temp_dir name) (disk w) = Some content ->
  decode content = Some (xs, sr) ->
  dict_get "low_gain" fields = None ->
  process (Some (JObj fields)) w =
    (ErrorJson (KeyError "low_gain"),
     {| store := store w ++ [xs]; disk := disk w |}).
Proof.
  intros Name File Dec Missing. unfold process, try_except, request_json.
  rewrite (wbind_done _ (eq_refl : wret _ _ = (Done _, _))).
  rewrite (wbind_done _ (subscript_ok _ Name)).
  unfold os_path_join_value.
  rewrite (wbind_done _ (eq_refl : wret _ _ = (Done _, _))).
  rewrite (wbind_done _ (librosa_load_ok _ File Dec)).
  now rewrite (wbind_thrown _ (subscript_missing _ Missing)).
Qed.

(** The processed name of an absolute file name has a directory
    part, [eq_]. *)
Lemma output_name_of_absolute name out_name :
  starts_with "/" name = true -> output_name name = Some out_name ->
  String.prefix "eq_/" out_name = true.
Proof.
  unfold output_name. destruct name as [| c rest]; [discriminate |].
  simpl. destruct (Ascii.eqb_spec c "/") as [-> | Other]; [| discriminate].
  intros _. simpl.
  destruct (py_split "." rest) as [| piece pieces]; intros Out;
    injection Out as <-; exact (prefix_append "eq_/" _).
Qed.

(** X16.  [process] does not keep to the directory when it reads: a
    file name that begins with a slash is itself the path that is
    loaded and filtered, whatever the directory.  The result is then
    to be written below the directory, in a directory [eq_]; where
    that cannot be written, the answer is the error of the write,
    after the file outside the directory has been read. *)
Theorem process_reads_absolute_path
    fields name gl gm gh content xs sr out_name w :
  starts_with "/" name = true ->
  slider_request fields name gl gm gh ->
  disk_read name (disk w) = Some content ->
  decode content = Some (xs, sr) ->
  (8000 < sr)%Z -> (27 < length xs)%nat -> filters_start sr ->
  output_name name = Some out_name ->
  writable (os_path_join temp_dir out_name) = false ->
  String.prefix "eq_/" out_name = true /\
  exists added,
    process (Some (JObj fields)) w =
      (ErrorJson (WriteError (os_path_join temp_dir out_name)),
       {| store := store w ++ xs :: added; disk := disk w |}).
Proof.
  intros Abs Req File Dec Hsr Long Zi Out Wr.
  split; [now apply (output_name_of_absolute name) |].
  assert (File' : disk_read (os_path_join temp_dir name) (disk w)
                  = Some content)
    by (unfold os_path_join; now rewrite Abs).
  destruct (process_run _ _ _ _ _ _ _ _ _ w Req File' Dec Hsr Long Zi Out)
    as (added & Run).
  rewrite Wr in Run. now exists added.
Qed.


(** ** upload *)

Lemma upload_disk name content w :
  writable (os_path_join temp_dir (secure_filename name)) = true ->
  disk (snd (upload (Some (name, content)) w))
    = (os_path_join temp_dir (secure_filename name), content) :: disk w /\
  fst (upload (Some (name, content)) w)
    = match decode content with
      | Some _ => UploadOk (secure_filename name)
      | None =>
          ErrorJson (LoadError
                       (os_path_join temp_dir (secure_filename name)))
      end.
Proof.
  intros Wr. unfold upload, try_except.
  rewrite (wbind_done _ (eq_refl : wret _ _ = (Done _, _))).
  simpl fst. simpl snd.
  set (filepath := os_path_join temp_dir (secure_filename name)) in *.
  assert (Save : file_save filepath content w
                 = (Done tt, {| store := store w;
                                disk := (filepath, content) :: disk w |}))
    by (unfold file_save; now rewrite Wr).
  rewrite (wbind_done _ Save).
  assert (File : disk_read filepath
                   (disk {| store := store w;
                            disk := (filepath, content) :: disk w |})
                 = Some content) by apply disk_read_newest.
  destruct (decode content) as [[samples sr] |] eqn:Dec.
  - now rewrite (wbind_done _ (librosa_load_ok _ File Dec)).
  - now rewrite (wbind_thrown _ (librosa_load_undecodable _ File Dec)).
Qed.

(** X17.  [upload] stores the file before it tries to decode it: when
    the file can be written it is on disk after the request, under
    its secured name, whether the answer is success or, for contents
    that are not audio, an error. *)
Theorem upload_stores_before_validating name content w :
  let filepath := os_path_join temp_dir (secure_filename name) in
  writable filepath = true ->
  disk (snd (upload (Some (name, content)) w))
    = (filepath, content) :: disk w /\
  fst (upload (Some (name, content)) w)
    = match decode content with
      | Some _ => UploadOk (secure_filename name)
      | None => ErrorJson (LoadError filepath)
      end.
Proof. intros filepath Wr. now apply upload_disk. Qed.


End Equalizer.

(** * Closed examples, with the all-pass instance *)

Lemma allpass_taps N Wn bt :
  length (fst (allpass_design N Wn bt)) = S (filter_order N bt) /\
  length (snd (allpass_design N Wn bt)) = S (filter_order N bt).
Proof. simpl. now rewrite repeat_length. Qed.

Lemma allpass_length b a xs :
  (3 * Nat.max (length a) (length b) < length xs)%nat ->
  length (allpass_kernel b a xs) = length xs.
Proof. reflexivity. Qed.

Lemma allpass_zero b a n :
  (3 * Nat.max (length a) (length b) < n)%nat ->
  allpass_kernel b a (repeat 0 n) = repeat 0 n.
Proof. reflexivity. Qed.

Lemma allpass_long_enough sr n :
  (27 < n)%nat -> long_enough allpass_design sr n.
Proof. intros L. now apply (long_enough_27 allpass_design allpass_taps). Qed.

Lemma allpass_filters_start sr :
  filters_start allpass_design allpass_solvable sr.
Proof. now repeat split. Qed.

Lemma rate_44100 : (8000 < 44100)%Z.
Proof. reflexivity. Qed.

Lemma gains_fit_below gl gm gh :
  gl <= 6160 -> gm <= 6160 -> gh <= 6160 -> gains_fit gl gm gh.
Proof. intros Hl Hm Hh. repeat split; now apply no_overflow_below. Qed.

Lemma gains_fit_0dB : gains_fit 0 0 0.
Proof. apply gains_fit_below; lra. Qed.

Lemma gains_fit_20dB : gains_fit (0 + 20) (0 + 20) (0 + 20).
Proof. apply gains_fit_below; lra. Qed.

(** The mixed buffer of 28 samples of value 2, all gains equal: the
    first sample, and a peak above 1 when the gain factor is at
    least 1. *)
Lemma allpass_mixed_peak g :
  1 <= py_pow10 (g / 20) ->
  1 < peak (mixed_samples allpass_design allpass_kernel
              (repeat 2 28) 44100 g g g).
Proof.
  intros K.
  apply Rlt_le_trans with
    (Rabs (2 * py_pow10 (g / 20) + 2 * py_pow10 (g / 20)
           + 2 * py_pow10 (g / 20))).
  - rewrite Rabs_pos_eq; lra.
  - apply peak_ge. left. reflexivity.
Qed.


Lemma py_pow10_20dB : py_pow10 ((0 + 20) / 20) = 10.
Proof.
  unfold py_pow10. replace ((0 + 20) / 20) with 1 by lra.
  apply Rpower_1. lra.
Qed.

Lemma allpass_28_samples_run :
  exists out added,
    apply_eq allpass_design allpass_kernel allpass_solvable
      0%nat 44100 0 0 0 [repeat 2 28]
    = (Ok out, [repeat 2 28] ++ added).
Proof.
  destruct (apply_eq_ok allpass_design allpass_kernel allpass_solvable
              allpass_length
              (audio := 0%nat) (xs := repeat 2 28) (h := [repeat 2 28])
              0 0 0 rate_44100 eq_refl)
    as (out & added & Run & _).
  - apply allpass_long_enough. simpl. lia.
  - apply allpass_filters_start.
  - apply gains_fit_0dB.
  - now exists out, added.
Qed.

Lemma allpass_28_samples_mix g :
  gains_fit g g g ->
  mix_bands allpass_design allpass_kernel allpass_solvable
    0%nat 44100 g g g [repeat 2 28]
  = (Ok 8%nat,
     [repeat 2 28] ++ mix_cells allpass_design allpass_kernel
                        (repeat 2 28) 44100 g g g).
Proof.
  intros F.
  apply (mix_bands_ok allpass_design allpass_kernel allpass_solvable
           allpass_length (audio := 0%nat) g g g rate_44100
           (h := [repeat 2 28]) eq_refl).
  - apply allpass_long_enough. simpl. lia.
  - apply allpass_filters_start.
  - exact F.
Qed.

Lemma allpass_5_samples_run :
  apply_eq allpass_design allpass_kernel allpass_solvable
    0%nat 44100 0 0 0 [[0; 0; 0; 0; 0]]
  = (Raise ValueError, [[0; 0; 0; 0; 0]]).
Proof.
  rewrite apply_eq_stages.
  assert (Short : (length [0; 0; 0; 0; 0]
                   <= padlen (low_design allpass_design 44100))%nat)
    by (rewrite (padlen_low allpass_design allpass_taps); simpl; lia).
  now rewrite (bind_raise _
    (mix_bands_too_short_for_low allpass_design allpass_kernel
       allpass_solvable (audio := 0%nat) (h := [[0; 0; 0; 0; 0]]) 0 0 0
       rate_44100 eq_refl Short)).
Qed.

(** C1, on 28 samples at 44100 Hz. *)
Lemma apply_eq_preserves_length_witness :
  exists out h' ys,
    apply_eq allpass_design allpass_kernel allpass_solvable
      0%nat 44100 0 0 0 [repeat 2 28]
    = (Ok out, h') /\
    nth_error h' out = Some ys /\ length ys = 28%nat.
Proof.
  destruct allpass_28_samples_run as (out & added & Run).
  destruct (apply_eq_preserves_length allpass_design allpass_kernel
              allpass_solvable allpass_length
              [repeat 2 28] 0%nat (repeat 2 28) 44100%Z 0 0 0
              out _ eq_refl Run)
    as (ys & Hys & Hlen).
  exists out, ([repeat 2 28] ++ added), ys. repeat split; assumption.
Defined.




(** C5, on 20 samples at 44100 Hz: the low band is computed, and the
    buffer is too short for the band-pass filter. *)
Lemma apply_eq_short_buffer_raises_witness :
  exists added,
    apply_eq allpass_design allpass_kernel allpass_solvable
      0%nat 44100 0 0 0 [repeat 0 20]
    = (Raise ValueError, [repeat 0 20] ++ added).
Proof.
  apply (apply_eq_short_buffer_raises allpass_design allpass_kernel
           allpass_solvable allpass_taps
           [repeat 0 20] 0%nat (repeat 0 20) 44100%Z 0 0 0 eq_refl).
  - simpl. lia.
  - discriminate.
  - intros _. split; [reflexivity | apply no_overflow_0dB].
Defined.

(** C5 as stated fails on five samples at 44100 Hz: the exception
    is [ValueError], and no other. *)
Lemma short_buffer_is_value_error :
  apply_eq allpass_design allpass_kernel allpass_solvable
    0%nat 44100 0 0 0 [[0; 0; 0; 0; 0]]
  = (Raise ValueError, [[0; 0; 0; 0; 0]]) /\
  fst (apply_eq allpass_design allpass_kernel allpass_solvable
         0%nat 44100 0 0 0 [[0; 0; 0; 0; 0]])
  <> Raise InsufficientSamplesError.
Proof.
  pose proof allpass_5_samples_run as Run.
  split; [exact Run |]. rewrite Run. discriminate.
Qed.

(** C6, on a store whose only cell is the empty buffer. *)
Lemma normalize_zero_length_raises_witness :
  normalize 0%nat [[]] = (Raise ValueError, [[]; []]) /\
  exists e,
    mix_bands allpass_design allpass_kernel allpass_solvable
      0%nat 44100 0 0 0 [[]]
    = (Raise e, [[]]) /\
    apply_eq allpass_design allpass_kernel allpass_solvable
      0%nat 44100 0 0 0 [[]]
    = (Raise e, [[]]) /\
    (e = ValueError \/ e = ZeroDivisionError).
Proof.
  apply (normalize_zero_length_raises allpass_design allpass_kernel
           allpass_solvable [[]] 0%nat 44100%Z 0 0 0 eq_refl).
Defined.

(** C6 as stated fails on the empty buffer: the normalization step
    does not return. *)
Lemma normalize_zero_length_not_returned :
  normalize 0%nat [[]] = (Raise ValueError, [[]; []]) /\
  ~ (exists out h',
       normalize 0%nat [[]] = (Ok out, h') /\ nth_error h' out = Some []).
Proof.
  assert (Run : normalize 0%nat [[]] = (Raise ValueError, [[]; []]))
    by (apply (normalize_empty (p := 0%nat) (h := [[]])); reflexivity).
  split; [exact Run |]. intros (out & h' & Ok' & _).
  rewrite Run in Ok'. discriminate.
Qed.

(** C7, on 28 zeros at 44100 Hz with three different gains. *)
Lemma apply_eq_silence_witness :
  exists out h',
    apply_eq allpass_design allpass_kernel allpass_solvable
      0%nat 44100 6 (-3) 12 [repeat 0 28]
    = (Ok out, h') /\
    nth_error h' out = Some (repeat 0 28).
Proof.
  apply (apply_eq_silence allpass_design allpass_kernel allpass_solvable
           allpass_taps allpass_length allpass_zero
           [repeat 0 28] 0%nat 28%nat 44100%Z 6 (-3) 12 rate_44100).
  - lia.
  - apply allpass_filters_start.
  - apply gains_fit_below; lra.
  - reflexivity.
Defined.

(** C7 as stated fails twice.  On 20 zeros at 44100 Hz the low band
    is filtered, the buffer is too short for the band-pass filter,
    and the call raises [ValueError].  On 28 zeros with a low gain of
    10000 dB the low band is filtered and [10 ** (10000 / 20)]
    raises [OverflowError]: silence does fail with an overflow, and
    nothing is returned. *)
Lemma silence_raises :
  fst (apply_eq allpass_design allpass_kernel allpass_solvable
         0%nat 44100 0 0 0 [repeat 0 20])
  = Raise ValueError /\
  fst (apply_eq allpass_design allpass_kernel allpass_solvable
         0%nat 44100 10000 0 0 [repeat 0 28])
  = Raise OverflowError /\
  ~ (exists out h',
       apply_eq allpass_design allpass_kernel allpass_solvable
         0%nat 44100 10000 0 0 [repeat 0 28]
       = (Ok out, h') /\
       nth_error h' out = Some (repeat 0 28)).
Proof.
  destruct (mix_bands_short allpass_design allpass_kernel allpass_solvable
              allpass_taps
              (audio := 0%nat) (xs := repeat 0 20) (h := [repeat 0 20])
              0 0 0 rate_44100 eq_refl)
    as (added & Bad).
  { simpl. lia. }
  { intros _. split; [reflexivity | apply no_overflow_0dB]. }
  assert (Loud : ~ no_overflow 10000) by (apply overflow_above; lra).
  assert (Long : (15 < length (repeat 0 28))%nat) by (simpl; lia).
  pose proof (apply_eq_low_gain_overflow allpass_design allpass_kernel
                allpass_solvable allpass_taps
                (audio := 0%nat) (h := [repeat 0 28]) 10000 0 0
                rate_44100 eq_refl Long eq_refl Loud) as Run.
  split; [| split].
  - rewrite apply_eq_stages. now rewrite (bind_raise _ Bad).
  - now rewrite Run.
  - intros (out & h' & Ok' & _). rewrite Run in Ok'. discriminate.
Qed.

(** C8, on a two-sample band. *)
Lemma gain_stage_0dB_identity_witness :
  py_pow10 (0 / 20) = 1 /\
  gain_stage 0%nat 0 [[1; -2]] = (Ok 1%nat, [[1; -2]; [1; -2]]).
Proof.
  apply (gain_stage_0dB_identity [[1; -2]] 0%nat [1; -2] eq_refl).
Defined.

(** C9, on a call that returns. *)
Lemma apply_eq_keeps_input_witness :
  nth_error
    (snd (apply_eq allpass_design allpass_kernel allpass_solvable
            0%nat 44100 0 0 0 [repeat 2 28]))
    0%nat
  = Some (repeat 2 28).
Proof.
  exact (proj1 (apply_eq_keeps_input allpass_design allpass_kernel
                  allpass_solvable
                  [repeat 2 28] 0%nat (repeat 2 28) 44100%Z 0 0 0 eq_refl)).
Defined.

(** C10, on 28 samples of value 2, with gains 0 dB and then 20 dB:
    both mixed peaks are above 1, the second mixed buffer is ten
    times the first, and the two calls return the same samples. *)
Lemma apply_eq_uniform_offset_witness :
  let mixed :=
    mixed_samples allpass_design allpass_kernel (repeat 2 28) 44100 0 0 0 in
  let mixed' :=
    mixed_samples allpass_design allpass_kernel (repeat 2 28) 44100
      (0 + 20) (0 + 20) (0 + 20) in
  mixed' = map (fun v => v * Rpower 10 (20 / 20)) mixed /\
  1 < peak mixed /\ 1 < peak mixed' /\
  exists out h1 out' h2 ys,
    apply_eq allpass_design allpass_kernel allpass_solvable
      0%nat 44100 0 0 0 [repeat 2 28]
    = (Ok out, h1) /\
    apply_eq allpass_design allpass_kernel allpass_solvable
      0%nat 44100 (0 + 20) (0 + 20) (0 + 20) [repeat 2 28]
    = (Ok out', h2) /\
    nth_error h1 out = Some ys /\
    nth_error h2 out' = Some ys.
Proof.
  intros mixed mixed'.
  assert (Big : 1 < peak mixed).
  { apply allpass_mixed_peak. rewrite py_pow10_0dB. lra. }
  assert (Big' : 1 < peak mixed').
  { apply allpass_mixed_peak. rewrite py_pow10_20dB. lra. }
  destruct (apply_eq_uniform_offset allpass_design allpass_kernel
              allpass_solvable allpass_length
              [repeat 2 28] 0%nat (repeat 2 28) 44100%Z
              0 0 0 20
              8%nat
              ([repeat 2 28] ++ mix_cells allpass_design allpass_kernel
                                  (repeat 2 28) 44100 0 0 0)
              mixed
              8%nat
              ([repeat 2 28] ++ mix_cells allpass_design allpass_kernel
                                  (repeat 2 28) 44100
                                  (0 + 20) (0 + 20) (0 + 20))
              mixed' eq_refl
              (allpass_28_samples_mix 0 gains_fit_0dB) eq_refl
              (allpass_28_samples_mix (0 + 20) gains_fit_20dB) eq_refl)
    as (Scaled & Same).
  split; [exact Scaled |]. split; [exact Big |]. split; [exact Big' |].
  exact (Same Big Big').
Defined.

(** C10 as stated fails on doubles.  Three bands of two samples with
    the three gains at 1 dB, and then at 2 dB, an offset of 1 dB:
    the second mixed buffer is not the first multiplied by
    [10 ** (1 / 20)], both mixed peaks are above 1, and the two
    buffers returned differ, in the last bits of their second
    sample. *)
Lemma uniform_offset_rounds :
  Binary64.mixed_2dB
  <> Binary64.np_mul_scalar Binary64.mixed_1dB Binary64.pow10_0_05 /\
  Binary64.clips Binary64.mixed_1dB = true /\
  Binary64.clips Binary64.mixed_2dB = true /\
  Binary64.normalize Binary64.mixed_1dB = Some Binary64.output_1dB /\
  Binary64.normalize Binary64.mixed_2dB = Some Binary64.output_2dB /\
  Binary64.output_2dB <> Binary64.output_1dB.
Proof.
  repeat (split; [vm_compute; first [reflexivity | discriminate] |]).
  vm_compute. discriminate.
Qed.

(** * Closed examples of the further properties *)


(** X2, on 28 zeros at 44100 Hz with a low gain of 10000 dB, where
    the call raises [OverflowError]. *)
Lemma apply_eq_raises_only_witness :
  (44100%Z = 0%Z /\ OverflowError = ZeroDivisionError) \/
  (44100%Z <> 0%Z /\ OverflowError = ValueError /\
   ((44100 <= 8000)%Z \/ (length (repeat 0 28) <= 27)%nat)) \/
  ((8000 < 44100)%Z /\ OverflowError = LinAlgError /\
   ~ filters_start allpass_design allpass_solvable 44100) \/
  ((8000 < 44100)%Z /\ OverflowError = OverflowError /\
   ~ gains_fit 10000 0 0).
Proof.
  assert (Loud : ~ no_overflow 10000) by (apply overflow_above; lra).
  assert (Long : (15 < length (repeat 0 28))%nat) by (simpl; lia).
  pose proof (apply_eq_low_gain_overflow allpass_design allpass_kernel
                allpass_solvable allpass_taps
                (audio := 0%nat) (h := [repeat 0 28]) 10000 0 0
                rate_44100 eq_refl Long eq_refl Loud) as Run.
  apply (apply_eq_raises_only allpass_design allpass_kernel
           allpass_solvable allpass_taps allpass_length
           [repeat 0 28] 0%nat (repeat 0 28) 44100%Z 10000 0 0
           OverflowError eq_refl).
  now rewrite Run.
Defined.

(** X3, on 28 samples at 44100 Hz. *)
Lemma apply_eq_result_is_new_witness :
  exists out h',
    apply_eq allpass_design allpass_kernel allpass_solvable
      0%nat 44100 0 0 0 [repeat 2 28]
    = (Ok out, h') /\
    nth_error [repeat 2 28] out = None /\ out <> 0%nat.
Proof.
  destruct allpass_28_samples_run as (out & added & Run).
  exists out, ([repeat 2 28] ++ added). split; [exact Run |].
  exact (apply_eq_result_is_new allpass_design allpass_kernel
           allpass_solvable allpass_length
           [repeat 2 28] 0%nat (repeat 2 28) 44100%Z 0 0 0
           out _ eq_refl Run).
Defined.


(** X5, on the buffer [2, -4]. *)
Lemma normalize_twice_witness :
  exists q h1 h2,
    normalize 0%nat [[2; -4]] = (Ok q, h1) /\
    normalize q h1 = (Ok q, h2) /\
    nth_error h2 q = nth_error h1 q.
Proof.
  assert (Hne : [2; -4] <> []) by discriminate.
  destruct (@normalize_result 0%nat [2; -4] [[2; -4]] eq_refl Hne)
    as (q & added & Run & _).
  destruct (normalize_twice [[2; -4]] 0%nat [2; -4] q _ eq_refl Hne Run)
    as (h2 & Again & Same).
  now exists q, ([[2; -4]] ++ added), h2.
Defined.

(** X6, at 44100 Hz. *)
Lemma design_filters_plain_cutoffs_witness :
  design_filters allpass_design 44100 [] =
    (Ok (allpass_design 4 (Wn1 (250 / (IZR 44100 / 2))) low,
         allpass_design 4
           (Wn2 (250 / (IZR 44100 / 2)) (4000 / (IZR 44100 / 2))) band,
         allpass_design 4 (Wn1 (4000 / (IZR 44100 / 2))) high),
     []).
Proof.
  apply (design_filters_plain_cutoffs allpass_design 44100%Z []). lia.
Defined.

(** X7, on the band [1, -2] with a gain of 6 dB. *)
Lemma gain_stage_slider_factor_witness :
  exists k,
    1 / 4 <= k <= 4 /\
    gain_stage 0%nat 6 [[1; -2]]
      = (Ok 1%nat, [[1; -2]; [1 * k; -2 * k]]).
Proof.
  apply (gain_stage_slider_factor [[1; -2]] 0%nat [1; -2] 6 eq_refl). lra.
Defined.

(** X8, on 28 samples at 44100 Hz. *)
Lemma apply_eq_again_witness :
  exists out h' out2 h'',
    apply_eq allpass_design allpass_kernel allpass_solvable
      0%nat 44100 0 0 0 [repeat 2 28]
    = (Ok out, h') /\
    apply_eq allpass_design allpass_kernel allpass_solvable
      0%nat 44100 0 0 0 h'
    = (Ok out2, h'') /\
    nth_error h'' out2 = nth_error h' out /\
    out2 <> out.
Proof.
  destruct allpass_28_samples_run as (out & added & Run).
  destruct (apply_eq_again allpass_design allpass_kernel allpass_solvable
              allpass_length
              [repeat 2 28] 0%nat (repeat 2 28) 44100%Z 0 0 0 out _
              eq_refl Run)
    as (out2 & h'' & Run2 & Same & New).
  now exists out, ([repeat 2 28] ++ added), out2, h''.
Defined.


(** ** The Flask layer *)

Lemma demo_page_request name :
  page_request demo_float (demo_fields name) name 0 6 0.
Proof.
  unfold page_request, demo_fields. simpl. split; [reflexivity |].
  repeat split; eexists; split; reflexivity.
Qed.

Lemma demo_slider_request name :
  slider_request demo_float (demo_fields name) name 0 6 0.
Proof. split; [apply demo_page_request | lra]. Qed.

(** X10, on the stem [song]. *)
Lemma output_name_ignores_extension_witness :
  output_name "song" = Some "eq_song.wav"%string /\
  output_name "song.mp3" = Some "eq_song.wav"%string /\
  output_name "song.tar.gz" = Some "eq_song.wav"%string.
Proof.
  destruct (output_name_ignores_extension "song" eq_refl) as [Bare Any].
  split; [exact Bare |]. split; [exact (Any "mp3"%string) |].
  exact (Any "tar.gz"%string).
Defined.

(** X12, on a request for a file that is not there. *)
Lemma process_error_writes_nothing_witness :
  disk (snd (process allpass_design allpass_kernel allpass_solvable
               demo_temp_dir demo_decode demo_encode demo_float
               demo_writable
               (Some (JObj (demo_fields "none.mp3")))
               (demo_world "/tmp/eq/tone.mp3" "tone")))
  = [("/tmp/eq/tone.mp3"%string, "tone"%string)].
Proof.
  apply (process_error_writes_nothing allpass_design allpass_kernel
           allpass_solvable
           demo_temp_dir demo_decode demo_encode demo_float demo_writable
           (Some (JObj (demo_fields "none.mp3")))
           (demo_world "/tmp/eq/tone.mp3" "tone")
           (LoadError "/tmp/eq/none.mp3")).
  reflexivity.
Defined.


(** X14, on a stored file of 28 samples at 8000 Hz. *)
Lemma process_low_rate_witness :
  process allpass_design allpass_kernel allpass_solvable demo_temp_dir
    demo_decode demo_encode demo_float demo_writable
    (Some (JObj (demo_fields "call.wav")))
    (demo_world "/tmp/eq/call.wav" "phone")
  = (ErrorJson (Py ValueError),
     {| store := [repeat 2 28];
        disk := [("/tmp/eq/call.wav"%string, "phone"%string)] |}).
Proof.
  apply (process_low_rate allpass_design allpass_kernel allpass_solvable
           demo_temp_dir demo_decode demo_encode demo_float demo_writable
           (demo_fields "call.wav") "call.wav" 0 6 0 "phone"
           (repeat 2 28) 8000%Z
           (demo_world "/tmp/eq/call.wav" "phone")
           (demo_page_request "call.wav") eq_refl eq_refl).
  - discriminate.
  - discriminate.
Defined.

(** X15, on a request with the file name only. *)
Lemma process_missing_gain_witness :
  process allpass_design allpass_kernel allpass_solvable demo_temp_dir
    demo_decode demo_encode demo_float demo_writable
    (Some (JObj [("filename"%string, JStr "tone.mp3")]))
    (demo_world "/tmp/eq/tone.mp3" "tone")
  = (ErrorJson (KeyError "low_gain"),
     {| store := [repeat 2 28];
        disk := [("/tmp/eq/tone.mp3"%string, "tone"%string)] |}).
Proof.
  apply (process_missing_gain allpass_design allpass_kernel allpass_solvable
           demo_temp_dir demo_decode demo_encode demo_float demo_writable
           [("filename"%string, JStr "tone.mp3")] "tone.mp3" "tone"
           (repeat 2 28) 44100%Z
           (demo_world "/tmp/eq/tone.mp3" "tone")
           eq_refl eq_refl eq_refl eq_refl).
Defined.

(** X16, on a file outside the directory: it is read and filtered,
    and the result cannot be written in [/tmp/eq/eq_/home/me]. *)
Lemma process_reads_absolute_path_witness :
  String.prefix "eq_/" "eq_/home/me/tone.wav" = true /\
  exists added,
    process allpass_design allpass_kernel allpass_solvable demo_temp_dir
      demo_decode demo_encode demo_float demo_writable
      (Some (JObj (demo_fields "/home/me/tone.mp3")))
      (demo_world "/home/me/tone.mp3" "tone")
    = (ErrorJson (WriteError "/tmp/eq/eq_/home/me/tone.wav"),
       {| store := [] ++ repeat 2 28 :: added;
          disk := [("/home/me/tone.mp3"%string, "tone"%string)] |}).
Proof.
  apply (process_reads_absolute_path allpass_design allpass_kernel
           allpass_solvable allpass_taps allpass_length
           demo_temp_dir demo_decode demo_encode demo_float demo_writable
           (demo_fields "/home/me/tone.mp3") "/home/me/tone.mp3" 0 6 0
           "tone" (repeat 2 28) 44100%Z "eq_/home/me/tone.wav"
           (demo_world "/home/me/tone.mp3" "tone")
           eq_refl (demo_slider_request "/home/me/tone.mp3")
           eq_refl eq_refl eq_refl).
  - simpl. lia.
  - apply allpass_filters_start.
  - reflexivity.
  - reflexivity.
Defined.


(** X17, on contents that are not audio. *)
Lemma upload_stores_before_validating_witness :
  disk (snd (upload demo_temp_dir demo_decode demo_secure demo_writable
               (Some ("notes.txt"%string, "hello"%string))
               {| store := []; disk := [] |}))
    = [("/tmp/eq/notes.txt"%string, "hello"%string)] /\
  fst (upload demo_temp_dir demo_decode demo_secure demo_writable
         (Some ("notes.txt"%string, "hello"%string))
         {| store := []; disk := [] |})
    = ErrorJson (LoadError "/tmp/eq/notes.txt").
Proof.
  apply (upload_stores_before_validating demo_temp_dir demo_decode
           demo_secure demo_writable "notes.txt" "hello"
           {| store := []; disk := [] |}).
  reflexivity.
Defined.

